(** * Poster image generator: the Lambda request handler

    A shallow embedding of [lambda_function.py] and the properties of its
    request-handling contract.

    The handler is a Python function over JSON-like values.  The embedding
    keeps Python's dynamic typing: an event is an arbitrary [value], and
    every operation that Python may reject at run time ([.get] on something
    that is no dict, subscripting an integer, ...) returns a [result] that
    is either a value or a raised exception.  Calls to the two backends
    (Bedrock and S3) and [print] are recorded in an effect log, so that
    statements such as "no backend call is made" are statements about the
    log. *)

From Stdlib Require Import List NArith ZArith Lia Bool String Ascii.
From Stdlib Require Decimal DecimalPos.
Import ListNotations.

Set Warnings "-register-all".

(* ================================================================= *)
(** ** Python strings *)

(** A Python [str] is a sequence of Unicode code points. *)
Definition pystr := list N.

(** [bytes] objects: a sequence of octets. *)
Definition bytes := list N.

(** Literals are written as Rocq strings of ASCII characters. *)
Definition lit (s : string) : pystr :=
  map N_of_ascii (list_ascii_of_string s).

Fixpoint pystr_eqb (a b : pystr) : bool :=
  match a, b with
  | [], [] => true
  | x :: a', y :: b' => N.eqb x y && pystr_eqb a' b'
  | _, _ => false
  end.

(** [str.isspace] on one code point (CPython's [_PyUnicode_IsWhitespace]). *)
Definition isspace (c : N) : bool :=
  ((9 <=? c) && (c <=? 13) ||
   (28 <=? c) && (c <=? 32) ||
   (c =? 133) || (c =? 160) || (c =? 5760) ||
   (8192 <=? c) && (c <=? 8202) ||
   (c =? 8232) || (c =? 8233) || (c =? 8239) || (c =? 8287) ||
   (c =? 12288))%N.

Fixpoint lstrip (s : pystr) : pystr :=
  match s with
  | [] => []
  | c :: s' => if isspace c then lstrip s' else s
  end.

Definition rstrip (s : pystr) : pystr := rev (lstrip (rev s)).

(** [s.strip()] *)
Definition strip (s : pystr) : pystr := rstrip (lstrip s).

Fixpoint startswith (s p : pystr) : bool :=
  match p, s with
  | [], _ => true
  | x :: p', y :: s' => N.eqb x y && startswith s' p'
  | _ :: _, [] => false
  end.

(** [s.endswith(p)] *)
Definition endswith (s p : pystr) : bool := startswith (rev s) (rev p).

(** [p in s] for two strings: [p] occurs as a substring of [s]. *)
Fixpoint contains (s p : pystr) : bool :=
  startswith s p ||
  match s with
  | [] => false
  | _ :: s' => contains s' p
  end.

(* ================================================================= *)
(** ** Number formatting *)

Definition digit_char (d : N) : N :=
  (if d <? 10 then 48 + d else 87 + d)%N.

(** The [w] least significant digits of [n] in base [b], most significant
    first: ['%0wd' % n] and ['%0wx' % n] for [n < b ^ w]. *)
Fixpoint fixed_digits (b : N) (w : nat) (n : N) : pystr :=
  match w with
  | O => []
  | S w' => fixed_digits b w' (n / b) ++ [digit_char (n mod b)]
  end.

Definition dec_fixed := fixed_digits 10.
Definition hex_fixed := fixed_digits 16.

Fixpoint uint_chars (u : Decimal.uint) : pystr :=
  match u with
  | Decimal.Nil => []
  | Decimal.D0 u => 48%N :: uint_chars u
  | Decimal.D1 u => 49%N :: uint_chars u
  | Decimal.D2 u => 50%N :: uint_chars u
  | Decimal.D3 u => 51%N :: uint_chars u
  | Decimal.D4 u => 52%N :: uint_chars u
  | Decimal.D5 u => 53%N :: uint_chars u
  | Decimal.D6 u => 54%N :: uint_chars u
  | Decimal.D7 u => 55%N :: uint_chars u
  | Decimal.D8 u => 56%N :: uint_chars u
  | Decimal.D9 u => 57%N :: uint_chars u
  end.

(** [str(z)] for an integer. *)
Definition int_str (z : Z) : pystr :=
  match z with
  | Z0 => lit "0"
  | Zpos p => uint_chars (Pos.to_uint p)
  | Zneg p => lit "-" ++ uint_chars (Pos.to_uint p)
  end.

(* ================================================================= *)
(** ** Python values *)

(** The values that [json.loads] produces.  A dict keeps its insertion
    order (it matters to [json.dumps]); lookup takes the first binding of a
    key.  A float is carried by its [repr] text, which is all the handler
    can observe of it (truthiness, [str] and [json.dumps]). *)
Inductive value : Type :=
| VNone
| VBool (b : bool)
| VInt (z : Z)
| VFloat (repr : pystr)
| VStr (s : pystr)
| VList (l : list value)
| VDict (d : list (pystr * value)).

Fixpoint lookup (k : pystr) (d : list (pystr * value)) : option value :=
  match d with
  | [] => None
  | (k', v) :: d' => if pystr_eqb k k' then Some v else lookup k d'
  end.

(** [bool(v)] *)
Definition truthy (v : value) : bool :=
  match v with
  | VNone => false
  | VBool b => b
  | VInt z => negb (Z.eqb z 0)
  | VFloat r => negb (pystr_eqb r (lit "0.0") || pystr_eqb r (lit "-0.0"))
  | VStr s => match s with [] => false | _ => true end
  | VList l => match l with [] => false | _ => true end
  | VDict d => match d with [] => false | _ => true end
  end.

(** [a or b] *)
Definition py_or (a b : value) : value := if truthy a then a else b.

(** [v is None] *)
Definition is_none (v : value) : bool :=
  match v with VNone => true | _ => false end.

(** [v == s] where [s] is a string. *)
Definition eq_str (v : value) (s : pystr) : bool :=
  match v with VStr t => pystr_eqb t s | _ => false end.

(** [isinstance(v, dict)] *)
Definition is_dict (v : value) : bool :=
  match v with VDict _ => true | _ => false end.

(* ================================================================= *)
(** ** Exceptions *)

Inductive exn : Type :=
| AttributeError
| TypeError
| KeyError
| IndexError
| ValueError
| BinasciiError
| ServiceError (msg : pystr).   (* raised by a backend client *)

Inductive result (A : Type) : Type :=
| Ok (a : A)
| Raise (e : exn).
Arguments Ok {A} a.
Arguments Raise {A} e.

Definition rbind {A B} (r : result A) (f : A -> result B) : result B :=
  match r with
  | Ok a => f a
  | Raise e => Raise e
  end.

(** [v.get(k)]: defined on dicts only; the other JSON types have no
    attribute [get]. *)
Definition dot_get (v : value) (k : pystr) : result value :=
  match v with
  | VDict d => Ok (match lookup k d with Some x => x | None => VNone end)
  | _ => Raise AttributeError
  end.

(** [k in v] for a string [k]. *)
Definition str_in (k : pystr) (v : value) : result bool :=
  match v with
  | VDict d => Ok (match lookup k d with Some _ => true | None => false end)
  | VList l => Ok (existsb (fun x => eq_str x k) l)
  | VStr s => Ok (contains s k)
  | _ => Raise TypeError
  end.

(** [v[k]] for a string [k]. *)
Definition subscript_str (v : value) (k : pystr) : result value :=
  match v with
  | VDict d => match lookup k d with Some x => Ok x | None => Raise KeyError end
  | _ => Raise TypeError
  end.

(** [v[0]] *)
Definition subscript_0 (v : value) : result value :=
  match v with
  | VList l => match l with x :: _ => Ok x | [] => Raise IndexError end
  | VStr s => match s with c :: _ => Ok (VStr [c]) | [] => Raise IndexError end
  | VDict _ => Raise KeyError    (* the keys of a JSON object are strings *)
  | _ => Raise TypeError
  end.

(* ================================================================= *)
(** ** [json.dumps] *)

Fixpoint join (sep : pystr) (parts : list pystr) : pystr :=
  match parts with
  | [] => []
  | [x] => x
  | x :: rest => x ++ sep ++ join sep rest
  end.

(** One character of a JSON string literal, with [ensure_ascii=True]:
    the two-character escapes, the printable ASCII characters as they are,
    everything else as [\uXXXX] (a surrogate pair above the BMP). *)
Definition json_escape_char (c : N) : pystr :=
  (if c =? 34 then [92; 34]
   else if c =? 92 then [92; 92]
   else if c =? 10 then [92; 110]
   else if c =? 13 then [92; 114]
   else if c =? 9 then [92; 116]
   else if c =? 8 then [92; 98]
   else if c =? 12 then [92; 102]
   else if (32 <=? c) && (c <=? 126) then [c]
   else if c <? 65536 then [92; 117] ++ hex_fixed 4 c
   else let v := c - 65536 in
        [92; 117] ++ hex_fixed 4 (55296 + v / 1024) ++
        [92; 117] ++ hex_fixed 4 (56320 + v mod 1024))%N.

Definition json_string (s : pystr) : pystr :=
  [34%N] ++ flat_map json_escape_char s ++ [34%N].

Definition json_float (r : pystr) : pystr :=
  if pystr_eqb r (lit "nan") then lit "NaN"
  else if pystr_eqb r (lit "inf") then lit "Infinity"
  else if pystr_eqb r (lit "-inf") then lit "-Infinity"
  else r.

(** [json.dumps(v)] with the default separators [", "] and [": "]. *)
Fixpoint json_dumps (v : value) : pystr :=
  match v with
  | VNone => lit "null"
  | VBool true => lit "true"
  | VBool false => lit "false"
  | VInt z => int_str z
  | VFloat r => json_float r
  | VStr s => json_string s
  | VList l => lit "[" ++ join (lit ", ") (map json_dumps l) ++ lit "]"
  | VDict d =>
      lit "{" ++
      join (lit ", ")
        (map (fun kv => match kv with
                        | (k, x) => json_string k ++ lit ": " ++ json_dumps x
                        end) d) ++
      lit "}"
  end.

(** A quoted JSON string whose content needs no escape. *)
Definition quoted (s : string) : pystr := [34%N] ++ lit s ++ [34%N].

(* ================================================================= *)
(** ** Clock, identifiers and configuration *)

(** [datetime.now(timezone.utc)] *)
Record datetime : Type := {
  year : N; month : N; day : N;
  hour : N; minute : N; second : N;
  microsecond : N
}.

(** [t.strftime("%Y%m%dT%H%M%SZ")], for the years of four digits. *)
Definition strftime (t : datetime) : pystr :=
  dec_fixed 4 (year t) ++ dec_fixed 2 (month t) ++ dec_fixed 2 (day t) ++
  lit "T" ++
  dec_fixed 2 (hour t) ++ dec_fixed 2 (minute t) ++ dec_fixed 2 (second t) ++
  lit "Z".

(** [u.hex] of a UUID whose 128-bit integer is [u]. *)
Definition uuid_hex (u : N) : pystr := hex_fixed 32 u.

Definition BEDROCK_REGION : pystr := lit "us-west-2".
Definition S3_REGION : pystr := lit "us-east-2".

(** The module-level configuration. *)
Record Settings : Type := {
  MODEL_ID : pystr;
  BUCKET_NAME : pystr;
  KEY_PREFIX : pystr;
  URL_EXPIRES_SECONDS : Z
}.

(** [os.environ.get(name, default)] *)
Fixpoint environ_get (environ : list (pystr * pystr)) (name default : pystr)
  : pystr :=
  match environ with
  | [] => default
  | (k, v) :: rest =>
      if pystr_eqb name k then v else environ_get rest name default
  end.

(** The configuration as the module computes it when it is loaded;
    [py_int] is Python's [int] on a string. *)
Definition load_settings (py_int : pystr -> result Z)
    (environ : list (pystr * pystr)) : result Settings :=
  let model_id :=
    strip (environ_get environ (lit "MODEL_ID")
             (lit "stability.sd3-5-large-v1:0")) in
  let bucket_name :=
    strip (environ_get environ (lit "BUCKET_NAME")
             (lit "myovieostermageenerator03")) in
  let key_prefix :=
    strip (environ_get environ (lit "KEY_PREFIX") (lit "generated/")) in
  rbind (py_int (environ_get environ (lit "URL_EXPIRES_SECONDS") (lit "3600")))
    (fun expires =>
       Ok {| MODEL_ID := model_id; BUCKET_NAME := bucket_name;
             KEY_PREFIX := key_prefix; URL_EXPIRES_SECONDS := expires |}).

(* ================================================================= *)
(** ** Effects *)

(** What the handler does to the outside world, in the order it does it. *)
Inductive effect : Type :=
| InvokeModel (modelId contentType accept body : pystr)
| PutObject (Bucket Key : pystr) (Body : bytes) (ContentType : pystr)
| GeneratePresignedUrl (ClientMethod Bucket Key : pystr) (ExpiresIn : Z)
    (HttpMethod : pystr)
| Print (line : pystr).

(** What the outside world answers during one invocation.  The answer of
    [bedrock_invoke_model] is the response body after [json.loads], or the
    exception that the call (or the parsing) raises. *)
Record Outside : Type := {
  bedrock_invoke_model : pystr -> pystr -> pystr -> pystr -> result value;
  s3_put_object : pystr -> pystr -> bytes -> pystr -> result unit;
  s3_generate_presigned_url :
    pystr -> pystr -> pystr -> Z -> pystr -> result pystr;
  utc_now : datetime;
  uuid4_int : N
}.

(** A computation that may raise and that logs its effects. *)
Definition M (A : Type) : Type := (result A * list effect)%type.

Definition ret {A} (a : A) : M A := (Ok a, []).

Definition lift {A} (r : result A) : M A := (r, []).

(** A call to the outside: it is logged, and its outcome is [r]. *)
Definition call {A} (e : effect) (r : result A) : M A := (r, [e]).

Definition bind {A B} (m : M A) (f : A -> M B) : M B :=
  match m with
  | (Ok a, log) => let (r, log') := f a in (r, log ++ log')
  | (Raise e, log) => (Raise e, log)
  end.

Declare Scope py_scope.
Delimit Scope py_scope with py.
Notation "x <- m ;; k" := (bind m (fun x => k))
  (at level 100, m at next level, right associativity) : py_scope.
Notation "x <-- r ;; k" := (rbind r (fun x => k))
  (at level 100, r at next level, right associativity) : py_scope.
Open Scope py_scope.

(* ================================================================= *)
(** ** The handler *)

Section Handler.

(** Two things the handler takes from Python's libraries are parameters
    of the development: the Unicode table behind [str.isprintable], which
    [repr] consults for the code points above ASCII, and
    [base64.b64decode], whose treatment of malformed text is not the same
    in all versions of CPython. *)
Variable unicode_isprintable : N -> bool.
Variable b64decode : value -> result bytes.

(** *** [str] and [repr] *)

Definition repr_char (quote c : N) : pystr :=
  (if (c =? quote) || (c =? 92) then [92; c]
   else if c =? 9 then [92; 116]
   else if c =? 10 then [92; 110]
   else if c =? 13 then [92; 114]
   else if (c <? 32) || (c =? 127) then [92; 120] ++ hex_fixed 2 c
   else if c <? 127 then [c]
   else if unicode_isprintable c then [c]
   else if c <=? 255 then [92; 120] ++ hex_fixed 2 c
   else if c <=? 65535 then [92; 117] ++ hex_fixed 4 c
   else [92; 85] ++ hex_fixed 8 c)%N.

Definition repr_str (s : pystr) : pystr :=
  let quote :=
    if existsb (N.eqb 39) s && negb (existsb (N.eqb 34) s)
    then 34%N else 39%N in
  [quote] ++ flat_map (repr_char quote) s ++ [quote].

(** [repr(v)] *)
Fixpoint py_repr (v : value) : pystr :=
  match v with
  | VNone => lit "None"
  | VBool true => lit "True"
  | VBool false => lit "False"
  | VInt z => int_str z
  | VFloat r => r
  | VStr s => repr_str s
  | VList l => lit "[" ++ join (lit ", ") (map py_repr l) ++ lit "]"
  | VDict d =>
      lit "{" ++
      join (lit ", ")
        (map (fun kv => match kv with
                        | (k, x) => repr_str k ++ lit ": " ++ py_repr x
                        end) d) ++
      lit "}"
  end.

(** [str(v)] *)
Definition py_str (v : value) : pystr :=
  match v with
  | VStr s => s
  | _ => py_repr v
  end.

(** *** Responses *)

(** The dict that the handler returns: its three entries. *)
Record response : Type := {
  statusCode : Z;
  headers : list (pystr * pystr);
  body : pystr
}.

Definition _headers : list (pystr * pystr) :=
  [ (lit "Content-Type", lit "application/json");
    (lit "Access-Control-Allow-Origin", lit "*");
    (lit "Access-Control-Allow-Headers", lit "Content-Type");
    (lit "Access-Control-Allow-Methods", lit "GET,OPTIONS") ].

Definition _resp (status_code : Z) (payload : value) : response :=
  {| statusCode := status_code;
     headers := _headers;
     body := json_dumps payload |}.

(** *** Parameters *)

Definition _qsp (event : value) : result value :=
  x <-- dot_get (py_or event (VDict [])) (lit "queryStringParameters") ;;
  Ok (py_or x (VDict [])).

Definition _get_param (event : value) (name default : pystr)
  : result pystr :=
  direct <-- (if is_dict event
              then x <-- dot_get event name ;; Ok (negb (is_none x))
              else Ok false) ;;
  if direct then
    x <-- dot_get event name ;; Ok (py_str x)
  else
    q <-- _qsp event ;;
    x <-- dot_get q name ;;
    if negb (is_none x) then
      y <-- dot_get q name ;; Ok (py_str y)
    else Ok default.

(** *** The steps of [lambda_handler] *)

(** Line 64: [(event or {}).get("httpMethod") == "OPTIONS"]. *)
Definition is_preflight (event : value) : result bool :=
  m <-- dot_get (py_or event (VDict [])) (lit "httpMethod") ;;
  Ok (eq_str m (lit "OPTIONS")).

(** Lines 76-83. *)
Definition request_body
    (prompt negative_prompt output_format aspect_ratio : pystr) : value :=
  VDict [ (lit "prompt", VStr prompt);
          (lit "negative_prompt", VStr negative_prompt);
          (lit "mode", VStr (lit "text-to-image"));
          (lit "seed", VInt 0);
          (lit "output_format", VStr output_format);
          (lit "aspect_ratio", VStr aspect_ratio) ].

(** The condition [k in data and data[k]]. *)
Definition has_nonempty (data : value) (k : pystr) : result bool :=
  present <-- str_in k data ;;
  if present then x <-- subscript_str data k ;; Ok (truthy x)
  else Ok false.

(** Lines 95-100: the encoded image, or [None] where the handler takes the
    [else] branch. *)
Definition image_b64 (data : value) : result (option value) :=
  c1 <-- has_nonempty data (lit "images") ;;
  if c1 then
    imgs <-- subscript_str data (lit "images") ;;
    x <-- subscript_0 imgs ;;
    Ok (Some x)
  else
    c2 <-- has_nonempty data (lit "artifacts") ;;
    if c2 then
      arts <-- subscript_str data (lit "artifacts") ;;
      a <-- subscript_0 arts ;;
      x <-- dot_get a (lit "base64") ;;
      Ok (Some x)
    else Ok None.

(** Line 106. *)
Definition key_prefix (cfg : Settings) : pystr :=
  if endswith (KEY_PREFIX cfg) (lit "/") then KEY_PREFIX cfg
  else KEY_PREFIX cfg ++ lit "/".

(** Lines 105-107. *)
Definition storage_key (cfg : Settings) (o : Outside) (output_format : pystr)
  : pystr :=
  let ts := strftime (utc_now o) in
  let prefix := key_prefix cfg in
  prefix ++ ts ++ lit "-" ++ uuid_hex (uuid4_int o) ++ lit "." ++ output_format.

(** Line 125. *)
Definition object_url_of (cfg : Settings) (key : pystr) : pystr :=
  lit "https://" ++ BUCKET_NAME cfg ++ lit ".s3." ++ S3_REGION ++
  lit ".amazonaws.com/" ++ key.

Definition bool_str (b : bool) : pystr :=
  if b then lit "True" else lit "False".

(** *** [lambda_handler] *)

Definition lambda_handler (o : Outside) (cfg : Settings)
    (event context : value) : M response :=
  preflight <- lift (is_preflight event) ;;
  if preflight then
    ret {| statusCode := 200;
           headers := _headers;
           body := json_dumps (VDict [(lit "ok", VBool true)]) |}
  else
  p <- lift (_get_param event (lit "prompt") []) ;;
  let prompt := strip p in
  match prompt with
  | [] =>
      ret (_resp 400
             (VDict [(lit "error",
                      VStr (lit "Missing required parameter: prompt"))]))
  | _ :: _ =>
  np <- lift (_get_param event (lit "negative_prompt") []) ;;
  let negative_prompt := strip np in
  ar <- lift (_get_param event (lit "aspect_ratio") (lit "1:1")) ;;
  let aspect_ratio := strip ar in
  fmt <- lift (_get_param event (lit "output_format") (lit "png")) ;;
  let output_format := strip fmt in
  let body_text :=
    json_dumps (request_body prompt negative_prompt output_format
                  aspect_ratio) in
  data <- call (InvokeModel (MODEL_ID cfg) (lit "application/json")
                  (lit "application/json") body_text)
               (bedrock_invoke_model o (MODEL_ID cfg)
                  (lit "application/json") (lit "application/json")
                  body_text) ;;
  img <- lift (image_b64 data) ;;
  match img with
  | None =>
      ret (_resp 502
             (VDict [(lit "error", VStr (lit "No image in Bedrock response"));
                     (lit "raw", data)]))
  | Some encoded =>
  image_bytes <- lift (b64decode encoded) ;;
  let key := storage_key cfg o output_format in
  let content_type := lit "image/" ++ output_format in
  _ <- call (PutObject (BUCKET_NAME cfg) key image_bytes content_type)
            (s3_put_object o (BUCKET_NAME cfg) key image_bytes
               content_type) ;;
  presigned_url <-
    call (GeneratePresignedUrl (lit "get_object") (BUCKET_NAME cfg) key
            (URL_EXPIRES_SECONDS cfg) (lit "GET"))
         (s3_generate_presigned_url o (lit "get_object") (BUCKET_NAME cfg)
            key (URL_EXPIRES_SECONDS cfg) (lit "GET")) ;;
  let object_url := object_url_of cfg key in
  _ <- call (Print (lit "PRESIGNED_HAS_X_AMZ: " ++
                    bool_str (contains presigned_url
                                (lit "X-Amz-Algorithm="))))
            (Ok tt) ;;
  _ <- call (Print (lit "FULL_PRESIGNED_URL: " ++ presigned_url)) (Ok tt) ;;
  ret {| statusCode := 200;
         headers :=
           [ (lit "Content-Type", lit "application/json");
             (lit "Access-Control-Allow-Origin", lit "*");
             (lit "Access-Control-Allow-Headers", lit "Content-Type");
             (lit "Access-Control-Allow-Methods", lit "GET,OPTIONS") ];
         body := json_dumps (VDict [(lit "presigned_url",
                                     VStr presigned_url)]) |}
  end
  end.

(** *** Reading a request *)

(** Lines 67-73 without the early return: the four parameters after
    [strip], in the order (prompt, negative_prompt, aspect_ratio,
    output_format). *)
Definition request_params (event : value)
  : result (pystr * pystr * pystr * pystr) :=
  p <-- _get_param event (lit "prompt") [] ;;
  np <-- _get_param event (lit "negative_prompt") [] ;;
  ar <-- _get_param event (lit "aspect_ratio") (lit "1:1") ;;
  fmt <-- _get_param event (lit "output_format") (lit "png") ;;
  Ok (strip p, strip np, strip ar, strip fmt).

End Handler.

(* ================================================================= *)
(** ** Requests and logs *)

(** A map gives no value to [name]: no such key, or the key is bound to
    [None] (JSON [null]). *)
Definition absent (d : list (pystr * value)) (name : pystr) : bool :=
  match lookup name d with
  | None => true
  | Some v => is_none v
  end.

(** The request is a map (or is empty) and its query-string parameters,
    if it has any, are a map. *)
Definition well_formed (event : value) : bool :=
  match _qsp event with
  | Ok (VDict _) => true
  | _ => false
  end.

(** The request gives no value to [name], neither directly nor in its
    query-string parameters. *)
Definition omits (event : value) (name : pystr) : bool :=
  match event with VDict d => absent d name | _ => true end &&
  match _qsp event with
  | Ok (VDict q) => absent q name
  | _ => false
  end.

(** The request gives the value [v] to [name]: in its direct field map,
    or else in its query-string parameters. *)
Inductive supplies : value -> pystr -> value -> Prop :=
| supplies_direct d name v :
    lookup name d = Some v -> v <> VNone ->
    supplies (VDict d) name v
| supplies_query event q name v :
    match event with VDict d => absent d name | _ => true end = true ->
    _qsp event = Ok (VDict q) ->
    lookup name q = Some v -> v <> VNone ->
    supplies event name v.

(** The direct field map of the request gives a value to [name]. *)
Definition gives_directly (event : value) (name : pystr) : bool :=
  match event with
  | VDict d => negb (absent d name)
  | _ => false
  end.

(** The JSON values that are no container: [in] is not defined on them. *)
Definition is_scalar (v : value) : bool :=
  match v with
  | VNone | VBool _ | VInt _ | VFloat _ => true
  | _ => false
  end.

(** The JSON values other than strings, floats and [None]. *)
Definition plain_non_string (v : value) : bool :=
  match v with
  | VBool _ | VInt _ | VList _ | VDict _ => true
  | _ => false
  end.

(** The byte strings that a log uploads to storage. *)
Definition uploaded (log : list effect) : list bytes :=
  flat_map (fun e => match e with
                     | PutObject _ _ b _ => [b]
                     | _ => []
                     end) log.

(** The keys under which a log stores objects. *)
Definition storage_keys (log : list effect) : list pystr :=
  flat_map (fun e => match e with
                     | PutObject _ k _ _ => [k]
                     | _ => []
                     end) log.

(** The provider call that the handler makes for a payload. *)
Definition provider_call (cfg : Settings) (payload : value) : effect :=
  InvokeModel (MODEL_ID cfg) (lit "application/json")
    (lit "application/json") (json_dumps payload).

(** What the provider answers to a payload. *)
Definition provider_answer (o : Outside) (cfg : Settings) (payload : value)
  : result value :=
  bedrock_invoke_model o (MODEL_ID cfg) (lit "application/json")
    (lit "application/json") (json_dumps payload).

(** The upload of the handler, and its request for a signed URL. *)
Definition put_call (cfg : Settings) (key : pystr) (image : bytes)
    (fmt : pystr) : effect :=
  PutObject (BUCKET_NAME cfg) key image (lit "image/" ++ fmt).

Definition presign_call (cfg : Settings) (key : pystr) : effect :=
  GeneratePresignedUrl (lit "get_object") (BUCKET_NAME cfg) key
    (URL_EXPIRES_SECONDS cfg) (lit "GET").

Definition presign_answer (o : Outside) (cfg : Settings) (key : pystr)
  : result pystr :=
  s3_generate_presigned_url o (lit "get_object") (BUCKET_NAME cfg) key
    (URL_EXPIRES_SECONDS cfg) (lit "GET").

(** The two debugging lines that the handler prints. *)
Definition debug_prints (presigned_url : pystr) : list effect :=
  [ Print (lit "PRESIGNED_HAS_X_AMZ: " ++
           bool_str (contains presigned_url (lit "X-Amz-Algorithm=")));
    Print (lit "FULL_PRESIGNED_URL: " ++ presigned_url) ].

(** The response to a request that went all the way. *)
Definition success_response (presigned_url : pystr) : response :=
  {| statusCode := 200;
     headers := _headers;
     body := json_dumps (VDict [(lit "presigned_url", VStr presigned_url)]) |}.

(** The response to a provider answer without image. *)
Definition no_image_response (data : value) : response :=
  _resp 502
    (VDict [(lit "error", VStr (lit "No image in Bedrock response"));
            (lit "raw", data)]).

(** The response to a preflight. *)
Definition preflight_response : response :=
  {| statusCode := 200;
     headers := _headers;
     body := json_dumps (VDict [(lit "ok", VBool true)]) |}.

(** The response to a request without prompt. *)
Definition missing_prompt_response : response :=
  _resp 400
    (VDict [(lit "error", VStr (lit "Missing required parameter: prompt"))]).

(** The payloads that a log sends to the provider. *)
Definition provider_payloads (log : list effect) : list pystr :=
  flat_map (fun e => match e with
                     | InvokeModel _ _ _ b => [b]
                     | _ => []
                     end) log.


(* ================================================================= *)
(** ** A reference base64 decoder and sample surroundings *)

Definition b64_value (c : N) : option N :=
  (if (65 <=? c) && (c <=? 90) then Some (c - 65)
   else if (97 <=? c) && (c <=? 122) then Some (c - 71)
   else if (48 <=? c) && (c <=? 57) then Some (c + 4)
   else if c =? 43 then Some 62
   else if c =? 47 then Some 63
   else None)%N.

(** The octets of one group of four characters; [=] (61) pads the last
    group only. *)
Definition b64_quad (a b c d : N) (last : bool) : result bytes :=
  match b64_value a, b64_value b with
  | Some x, Some y =>
      let b1 := (x * 4 + y / 16)%N in
      if last && N.eqb c 61 && N.eqb d 61 then Ok [b1]
      else
        match b64_value c with
        | Some z =>
            let b2 := ((y mod 16) * 16 + z / 4)%N in
            if last && N.eqb d 61 then Ok [b1; b2]
            else
              match b64_value d with
              | Some w => Ok [b1; b2; ((z mod 4) * 64 + w)%N]
              | None => Raise BinasciiError
              end
        | None => Raise BinasciiError
        end
  | _, _ => Raise BinasciiError
  end.

Fixpoint b64_groups (s : pystr) : result bytes :=
  match s with
  | [] => Ok []
  | a :: b :: c :: d :: rest =>
      match rest with
      | [] => b64_quad a b c d true
      | _ :: _ =>
          hd <-- b64_quad a b c d false ;;
          tl <-- b64_groups rest ;;
          Ok (hd ++ tl)
      end
  | _ => Raise BinasciiError
  end.

(** [base64.b64decode] on the texts in canonical RFC 4648 form (standard
    alphabet, whole groups of four, padding in the last group) and on the
    arguments that are no string, where all versions of CPython agree.
    Other texts are refused here; CPython skips foreign characters instead.
    The properties below hold for every decoder, this one instantiates
    them. *)
Definition b64decode_canonical (v : value) : result bytes :=
  match v with
  | VStr s =>
      if forallb (fun c => N.ltb c 128) s then b64_groups s
      else Raise ValueError
  | _ => Raise TypeError
  end.

(** A table for [str.isprintable] that is right on Latin-1. *)
Definition isprintable_latin1 (c : N) : bool :=
  ((160 <? c) && negb (c =? 173))%N.

Definition sample_settings : Settings :=
  {| MODEL_ID := lit "stability.sd3-5-large-v1:0";
     BUCKET_NAME := lit "myovieostermageenerator03";
     KEY_PREFIX := lit "generated/";
     URL_EXPIRES_SECONDS := 3600 |}.

Definition sample_url : pystr :=
  lit "https://myovieostermageenerator03.s3.us-east-2.amazonaws.com/generated/x.png?X-Amz-Algorithm=AWS4-HMAC-SHA256&X-Amz-Expires=3600&X-Amz-Signature=0f".

(** An outside world in which Bedrock answers [data] and S3 accepts the
    upload. *)
Definition sample_outside (data : value) (u : N) : Outside :=
  {| bedrock_invoke_model := fun _ _ _ _ => Ok data;
     s3_put_object := fun _ _ _ _ => Ok tt;
     s3_generate_presigned_url := fun _ _ _ _ _ => Ok sample_url;
     utc_now := {| year := 2024; month := 3; day := 9;
                   hour := 7; minute := 5; second := 42;
                   microsecond := 123456 |};
     uuid4_int := u |}.

Definition sample_handler (data : value) (u : N) (event : value) : M response :=
  lambda_handler isprintable_latin1 b64decode_canonical
    (sample_outside data u) sample_settings event VNone.

(** An outside world with given answers. *)
Definition scripted_outside (answer : result value) (put : result unit)
    (sign : result pystr) : Outside :=
  {| bedrock_invoke_model := fun _ _ _ _ => answer;
     s3_put_object := fun _ _ _ _ => put;
     s3_generate_presigned_url := fun _ _ _ _ _ => sign;
     utc_now := {| year := 2024; month := 3; day := 9;
                   hour := 7; minute := 5; second := 42;
                   microsecond := 123456 |};
     uuid4_int := 7 |}.

Definition scripted_handler (answer : result value) (put : result unit)
    (sign : result pystr) (event : value) : M response :=
  lambda_handler isprintable_latin1 b64decode_canonical
    (scripted_outside answer put sign) sample_settings event VNone.

Definition throttled : exn := ServiceError (lit "ThrottlingException").

Definition access_denied : exn := ServiceError (lit "AccessDenied").

(** Sample requests and provider answers. *)
Definition cat_event : value :=
  VDict [(lit "prompt", VStr (lit " a cat "))].

Definition blank_event : value :=
  VDict [(lit "prompt", VStr (lit "   "))].

Definition empty_prompt_event : value :=
  VDict [(lit "prompt", VStr [])].

(** An API Gateway event without query string. *)
Definition no_query_event : value :=
  VDict [(lit "httpMethod", VStr (lit "GET"));
         (lit "queryStringParameters", VNone)].

Definition blank_options_event : value :=
  VDict [(lit "prompt", VStr (lit "a cat"));
         (lit "aspect_ratio", VStr (lit "  "));
         (lit "queryStringParameters",
          VDict [(lit "output_format", VStr (lit "  "))])].

Definition both_sources_event : list (pystr * value) :=
  [(lit "prompt", VStr (lit "direct"));
   (lit "queryStringParameters", VDict [(lit "prompt", VStr (lit "query"))])].

Definition query_only_event : list (pystr * value) :=
  [(lit "prompt", VNone);
   (lit "queryStringParameters", VDict [(lit "prompt", VStr (lit "query"))])].

Definition images_answer : list (pystr * value) :=
  [(lit "images", VList [VStr (lit "QUJD")])].

Definition artifacts_answer : list (pystr * value) :=
  [(lit "artifacts", VList [VDict [(lit "base64", VStr (lit "QUJD"))]])].

Definition no_base64_answer : list (pystr * value) :=
  [(lit "artifacts", VList [VDict []])].

Definition dog_event : value :=
  VDict [(lit "prompt", VStr (lit "a dog"));
         (lit "negative_prompt", VStr (lit "blurry"))].

Definition cat_payload : value :=
  request_body (lit "a cat") [] (lit "png") (lit "1:1").

Definition sample_key (u : N) : pystr :=
  storage_key sample_settings (sample_outside (VDict images_answer) u)
    (lit "png").

(** The log of a sample request that goes all the way. *)
Definition sample_log (u : N) : list effect :=
  [ provider_call sample_settings cat_payload;
    put_call sample_settings (sample_key u) [65; 66; 67]%N (lit "png");
    presign_call sample_settings (sample_key u) ] ++
  debug_prints sample_url.

(** A request whose query-string parameters are a string instead of a
    map. *)
Definition malformed_query_event : value :=
  VDict [(lit "prompt", VStr (lit "a cat"));
         (lit "queryStringParameters", VStr (lit "aspect_ratio=16:9"))].

Definition options_event : value :=
  VDict [(lit "httpMethod", VStr (lit "OPTIONS"));
         (lit "queryStringParameters", VNone)].

Definition number_prompt_event : value :=
  VDict [(lit "prompt", VInt 2001)].

(** The log of a sample request up to the upload. *)
Definition sample_log_upload : list effect :=
  [ provider_call sample_settings cat_payload;
    put_call sample_settings (sample_key 7) [65; 66; 67]%N (lit "png") ].

(** An environment that sets the bucket and the prefix. *)
Definition sample_environ : list (pystr * pystr) :=
  [(lit "BUCKET_NAME", lit "posters "); (lit "KEY_PREFIX", lit "  out ")].

(* ================================================================= *)
(** ** Basic facts *)

Lemma pystr_eqb_eq (a b : pystr) : pystr_eqb a b = true <-> a = b.
Proof.
  revert b; induction a as [|x a IH]; intros [|y b]; simpl;
    try (split; [discriminate | discriminate]); try tauto.
  rewrite andb_true_iff, N.eqb_eq, IH.
  split; [intros [-> ->]; reflexivity | intros E; inversion E; auto].
Qed.

Lemma pystr_eqb_refl (a : pystr) : pystr_eqb a a = true.
Proof. apply pystr_eqb_eq; reflexivity. Qed.

Lemma bind_lift_ok {A B} (a : A) (f : A -> M B) : bind (lift (Ok a)) f = f a.
Proof. unfold bind, lift; destruct (f a); reflexivity. Qed.

Lemma bind_lift_raise {A B} (e : exn) (f : A -> M B) :
  bind (lift (Raise e)) f = (Raise e, []).
Proof. reflexivity. Qed.

Lemma bind_call_ok {A B} (c : effect) (a : A) (f : A -> M B) :
  bind (call c (Ok a)) f = (fst (f a), c :: snd (f a)).
Proof. unfold bind, call; destruct (f a); reflexivity. Qed.

Lemma bind_call_raise {A B} (c : effect) (e : exn) (f : A -> M B) :
  bind (call c (Raise e)) f = (Raise e, [c]).
Proof. reflexivity. Qed.

Lemma py_or_dict (d : list (pystr * value)) (k : pystr) :
  dot_get (py_or (VDict d) (VDict [])) k = dot_get (VDict d) k.
Proof. destruct d; reflexivity. Qed.

(* ----------------------------------------------------------------- *)
(** *** Fixed-width numerals *)

Lemma fixed_digits_length (b : N) (w : nat) (n : N) :
  List.length (fixed_digits b w n) = w.
Proof.
  revert n; induction w as [|w IH]; intros n; simpl; [reflexivity|].
  rewrite length_app, IH. simpl. lia.
Qed.

Lemma digit_char_inj (a b : N) :
  (a < 16)%N -> (b < 16)%N -> digit_char a = digit_char b -> a = b.
Proof.
  unfold digit_char. intros Ha Hb.
  destruct (N.ltb_spec a 10), (N.ltb_spec b 10); lia.
Qed.

Lemma app_eq_length {A} (a a' b b' : list A) :
  List.length a = List.length a' -> a ++ b = a' ++ b' -> a = a' /\ b = b'.
Proof.
  revert a'; induction a as [|x a IH]; intros [|y a'] Hl H;
    simpl in *; try discriminate; [auto|].
  inversion H; subst. destruct (IH a') as [-> ->]; auto.
Qed.

Lemma hex_fixed_inj (w : nat) (n m : N) :
  (n < 16 ^ N.of_nat w)%N -> (m < 16 ^ N.of_nat w)%N ->
  hex_fixed w n = hex_fixed w m -> n = m.
Proof.
  unfold hex_fixed. revert n m; induction w as [|w IH]; intros n m Hn Hm H.
  - simpl in Hn, Hm. lia.
  - rewrite Nat2N.inj_succ, N.pow_succ_r' in Hn, Hm. simpl in H.
    apply app_eq_length in H; [|rewrite !fixed_digits_length; reflexivity].
    destruct H as [Hhi Hlo]. inversion Hlo as [Hd].
    apply digit_char_inj in Hd; try (apply N.mod_lt; lia).
    apply IH in Hhi; try (apply N.Div0.div_lt_upper_bound; lia).
    rewrite (N.div_mod' n 16), (N.div_mod' m 16). congruence.
Qed.

Lemma strftime_length (t : datetime) : List.length (strftime t) = 16%nat.
Proof.
  unfold strftime, dec_fixed.
  rewrite !length_app, !fixed_digits_length. reflexivity.
Qed.

Lemma endswith_snoc (s : pystr) (c : N) : endswith (s ++ [c]) [c] = true.
Proof.
  unfold endswith. rewrite rev_app_distr. simpl. rewrite N.eqb_refl.
  destruct (rev s); reflexivity.
Qed.

Section Properties.

Variable unicode_isprintable : N -> bool.
Variable b64decode : value -> result bytes.

#[local] Abbreviation get_param := (_get_param unicode_isprintable).
#[local] Abbreviation handler := (lambda_handler unicode_isprintable b64decode).
#[local] Abbreviation params := (request_params unicode_isprintable).

(* ----------------------------------------------------------------- *)
(** *** Parameter extraction *)

Lemma get_param_direct (d : list (pystr * value)) (name default : pystr)
    (v : value) :
  lookup name d = Some v -> v <> VNone ->
  get_param (VDict d) name default = Ok (py_str unicode_isprintable v).
Proof.
  intros Hl Hv. unfold get_param, _get_param. simpl. rewrite Hl.
  destruct v; try reflexivity. contradiction.
Qed.

Lemma get_param_query (event : value) (name default : pystr) :
  match event with VDict d => absent d name | _ => true end = true ->
  get_param event name default =
  (q <-- _qsp event ;;
   x <-- dot_get q name ;;
   Ok (if is_none x then default else py_str unicode_isprintable x)).
Proof.
  intros Ha. unfold get_param, _get_param.
  assert (Hd : (if is_dict event
                then x <-- dot_get event name ;; Ok (negb (is_none x))
                else Ok false) = Ok false).
  { destruct event; try reflexivity. simpl. unfold absent in Ha.
    destruct (lookup name d); [rewrite Ha|]; reflexivity. }
  rewrite Hd. simpl.
  destruct (_qsp event) as [q|]; [|reflexivity]. simpl.
  destruct (dot_get q name) as [x|]; [|reflexivity]. simpl.
  destruct (is_none x); reflexivity.
Qed.

Lemma supplies_get_param (event : value) (name default : pystr) (v : value) :
  supplies event name v ->
  get_param event name default = Ok (py_str unicode_isprintable v).
Proof.
  intros [d n w Hl Hv | ev q n w Ha Hq Hl Hv].
  - apply get_param_direct; assumption.
  - rewrite get_param_query by assumption.
    rewrite Hq. simpl. rewrite Hl. destruct w; try reflexivity. contradiction.
Qed.

Lemma omits_get_param (event : value) (name default : pystr) :
  omits event name = true -> get_param event name default = Ok default.
Proof.
  unfold omits. rewrite andb_true_iff. intros [Ha Hq].
  rewrite get_param_query by assumption.
  destruct (_qsp event) as [[]|]; try discriminate. simpl.
  unfold absent in Hq. destruct (lookup name d); [rewrite Hq|]; reflexivity.
Qed.

Lemma omits_well_formed (event : value) (name : pystr) :
  omits event name = true -> well_formed event = true.
Proof.
  unfold omits, well_formed. rewrite andb_true_iff. intros [_ Hq].
  destruct (_qsp event) as [[]|]; try discriminate. reflexivity.
Qed.

(** On a well-formed request no parameter extraction raises. *)
Lemma get_param_total (event : value) (name default : pystr) :
  well_formed event = true -> exists s, get_param event name default = Ok s.
Proof.
  unfold well_formed. intros Hw.
  destruct (_qsp event) as [[]|] eqn:Hq; try discriminate.
  unfold get_param, _get_param. rewrite Hq.
  destruct event; simpl;
    try (destruct (lookup name d) as [x|]; [destruct (is_none x)|]; simpl;
         eexists; reflexivity).
  destruct (lookup name d0) as [y|] eqn:Hy; simpl.
  - destruct (is_none y); simpl.
    + destruct (lookup name d) as [x|]; [destruct (is_none x)|]; simpl;
        eexists; reflexivity.
    + eexists; reflexivity.
  - destruct (lookup name d) as [x|]; [destruct (is_none x)|]; simpl;
      eexists; reflexivity.
Qed.

(* ----------------------------------------------------------------- *)
(** *** Preflight and validation *)

Lemma is_preflight_options (d : list (pystr * value)) :
  lookup (lit "httpMethod") d = Some (VStr (lit "OPTIONS")) ->
  is_preflight (VDict d) = Ok true.
Proof.
  intros H. unfold is_preflight. rewrite py_or_dict. simpl. rewrite H.
  reflexivity.
Qed.

(** C4.  A request whose [httpMethod] is [OPTIONS] is answered with status
    200 and the body [{"ok": true}], whatever else the request holds, and
    nothing is done to the outside world: the effect log is empty. *)
Theorem options_preflight (o : Outside) (cfg : Settings)
    (d : list (pystr * value)) (context : value) :
  lookup (lit "httpMethod") d = Some (VStr (lit "OPTIONS")) ->
  handler o cfg (VDict d) context =
  (Ok {| statusCode := 200;
         headers := _headers;
         body := lit "{" ++ quoted "ok" ++ lit ": true}" |},
   []).
Proof.
  intros H. unfold lambda_handler.
  rewrite (is_preflight_options d H), bind_lift_ok. reflexivity.
Qed.

(** C1.  A request that is no preflight and whose [prompt], as the handler
    extracts it, is empty after [strip] (the parameter is missing, empty or
    made of whitespace only) is answered with status 400 and the body
    [{"error": "Missing required parameter: prompt"}]; the effect log is
    empty, so neither Bedrock nor S3 is called. *)
Theorem missing_prompt_rejected (o : Outside) (cfg : Settings)
    (event context : value) (p : pystr) :
  is_preflight event = Ok false ->
  get_param event (lit "prompt") [] = Ok p ->
  strip p = [] ->
  handler o cfg event context =
  (Ok {| statusCode := 400;
         headers := _headers;
         body := lit "{" ++ quoted "error" ++ lit ": " ++
                 quoted "Missing required parameter: prompt" ++ lit "}" |},
   []).
Proof.
  intros Hpre Hp Hs. unfold lambda_handler.
  rewrite Hpre, bind_lift_ok. cbv iota.
  rewrite Hp, bind_lift_ok. cbv zeta. rewrite Hs. reflexivity.
Qed.

(** C9.  A parameter to which the direct field map gives a value (a
    binding other than [None]) is read from there, whatever the
    query-string parameters hold; the query-string parameters give the
    value only when the direct field map gives none. *)
Theorem direct_field_first (d q : list (pystr * value))
    (name default : pystr) (v w : value) :
  (lookup name d = Some v -> v <> VNone ->
   get_param (VDict d) name default = Ok (py_str unicode_isprintable v)) /\
  (absent d name = true ->
   lookup (lit "queryStringParameters") d = Some (VDict q) ->
   lookup name q = Some w -> w <> VNone ->
   get_param (VDict d) name default = Ok (py_str unicode_isprintable w)).
Proof.
  split.
  - apply get_param_direct.
  - intros Ha Hq Hl Hw.
    apply supplies_get_param.
    apply supplies_query with (q := q); try assumption.
    unfold _qsp. rewrite py_or_dict. simpl. rewrite Hq.
    unfold py_or. simpl. destruct q; [discriminate | reflexivity].
Qed.

(* ----------------------------------------------------------------- *)
(** *** The run of an accepted request *)

Lemma params_inv (event : value) (prompt np ar fmt : pystr) :
  params event = Ok (prompt, np, ar, fmt) ->
  exists p n a f,
    get_param event (lit "prompt") [] = Ok p /\
    get_param event (lit "negative_prompt") [] = Ok n /\
    get_param event (lit "aspect_ratio") (lit "1:1") = Ok a /\
    get_param event (lit "output_format") (lit "png") = Ok f /\
    prompt = strip p /\ np = strip n /\ ar = strip a /\ fmt = strip f.
Proof.
  unfold request_params. intros H.
  destruct (get_param event (lit "prompt") []) as [p|]; [|discriminate].
  destruct (get_param event (lit "negative_prompt") []) as [n|];
    [|discriminate].
  destruct (get_param event (lit "aspect_ratio") (lit "1:1")) as [a|];
    [|discriminate].
  destruct (get_param event (lit "output_format") (lit "png")) as [f|];
    [|discriminate].
  simpl in H. inversion H. exists p, n, a, f. repeat split; reflexivity.
Qed.

(** Once the request is accepted, the handler is a cascade over the
    answers of the outside world. *)
Lemma handler_run (o : Outside) (cfg : Settings) (event context : value)
    (prompt np ar fmt : pystr) :
  is_preflight event = Ok false ->
  params event = Ok (prompt, np, ar, fmt) ->
  prompt <> [] ->
  let payload := request_body prompt np fmt ar in
  let pc := provider_call cfg payload in
  let key := storage_key cfg o fmt in
  handler o cfg event context =
  match provider_answer o cfg payload with
  | Raise e => (Raise e, [pc])
  | Ok data =>
    match image_b64 data with
    | Raise e => (Raise e, [pc])
    | Ok None => (Ok (no_image_response data), [pc])
    | Ok (Some encoded) =>
      match b64decode encoded with
      | Raise e => (Raise e, [pc])
      | Ok image =>
        let put := put_call cfg key image fmt in
        match s3_put_object o (BUCKET_NAME cfg) key image
                (lit "image/" ++ fmt) with
        | Raise e => (Raise e, [pc; put])
        | Ok _ =>
          match presign_answer o cfg key with
          | Raise e => (Raise e, [pc; put; presign_call cfg key])
          | Ok url =>
              (Ok (success_response url),
               [pc; put; presign_call cfg key] ++ debug_prints url)
          end
        end
      end
    end
  end.
Proof.
  intros Hpre Hpar Hne payload pc key. subst payload pc key.
  destruct (params_inv _ _ _ _ _ Hpar)
    as (p & n & a & f & Hp & Hn & Ha & Hf & -> & -> & -> & ->).
  unfold provider_call, provider_answer, presign_answer, presign_call,
    put_call, lambda_handler.
  rewrite Hpre, bind_lift_ok. cbv iota.
  rewrite Hp, bind_lift_ok. cbv zeta.
  destruct (strip p) as [|c rest] eqn:Hs; [contradiction|].
  rewrite Hn, bind_lift_ok, Ha, bind_lift_ok, Hf, bind_lift_ok.
  match goal with
  | |- context [bedrock_invoke_model ?x ?m ?c1 ?c2 ?b] =>
      destruct (bedrock_invoke_model x m c1 c2 b) as [data|e]
  end; [rewrite bind_call_ok | reflexivity].
  destruct (image_b64 data) as [[encoded|]|e];
    [ rewrite bind_lift_ok | reflexivity | reflexivity ].
  destruct (b64decode encoded) as [image|e];
    [rewrite bind_lift_ok | reflexivity].
  match goal with
  | |- context [s3_put_object ?x ?b ?k ?i ?c] =>
      destruct (s3_put_object x b k i c) as [u|e]
  end; [rewrite bind_call_ok | reflexivity].
  match goal with
  | |- context [s3_generate_presigned_url ?x ?m ?b ?k ?t ?h] =>
      destruct (s3_generate_presigned_url x m b k t h) as [url|e]
  end; reflexivity.
Qed.

(** When every backend answers, the request goes all the way: one
    provider call, one upload, one signature, and the success response. *)
Lemma handler_succeeds (o : Outside) (cfg : Settings) (event context : value)
    (prompt np ar fmt : pystr) (data encoded : value) (image : bytes)
    (url : pystr) :
  is_preflight event = Ok false ->
  params event = Ok (prompt, np, ar, fmt) ->
  prompt <> [] ->
  provider_answer o cfg (request_body prompt np fmt ar) = Ok data ->
  image_b64 data = Ok (Some encoded) ->
  b64decode encoded = Ok image ->
  s3_put_object o (BUCKET_NAME cfg) (storage_key cfg o fmt) image
    (lit "image/" ++ fmt) = Ok tt ->
  presign_answer o cfg (storage_key cfg o fmt) = Ok url ->
  handler o cfg event context =
  (Ok (success_response url),
   [provider_call cfg (request_body prompt np fmt ar);
    put_call cfg (storage_key cfg o fmt) image fmt;
    presign_call cfg (storage_key cfg o fmt)] ++ debug_prints url).
Proof.
  intros Hpre Hpar Hne Hans Himg Hdec Hput Hurl.
  rewrite (handler_run o cfg event context _ _ _ _ Hpre Hpar Hne).
  cbv zeta. rewrite Hans, Himg, Hdec, Hput, Hurl. reflexivity.
Qed.

(** The ways in which the handler returns a response. *)
Lemma handler_returns (o : Outside) (cfg : Settings) (event context : value)
    (r : response) (log : list effect) :
  handler o cfg event context = (Ok r, log) ->
  (is_preflight event = Ok true /\ r = preflight_response /\ log = []) \/
  (is_preflight event = Ok false /\
   exists p, get_param event (lit "prompt") [] = Ok p /\ strip p = [] /\
             r = missing_prompt_response /\ log = []) \/
  (is_preflight event = Ok false /\
   exists prompt np ar fmt data,
     params event = Ok (prompt, np, ar, fmt) /\ prompt <> [] /\
     provider_answer o cfg (request_body prompt np fmt ar) = Ok data /\
     ((image_b64 data = Ok None /\ r = no_image_response data /\
       log = [provider_call cfg (request_body prompt np fmt ar)]) \/
      (exists encoded image url,
         image_b64 data = Ok (Some encoded) /\
         b64decode encoded = Ok image /\
         presign_answer o cfg (storage_key cfg o fmt) = Ok url /\
         r = success_response url /\
         log =
           [provider_call cfg (request_body prompt np fmt ar);
            put_call cfg (storage_key cfg o fmt) image fmt;
            presign_call cfg (storage_key cfg o fmt)] ++
           debug_prints url))).
Proof.
  intros H.
  destruct (is_preflight event) as [[|]|e] eqn:Hpre.
  - left. unfold lambda_handler in H. rewrite Hpre, bind_lift_ok in H.
    inversion H. auto.
  - right.
    destruct (get_param event (lit "prompt") []) as [p|e] eqn:Hp;
      [|unfold lambda_handler in H; rewrite Hpre, bind_lift_ok, Hp in H;
        discriminate].
    destruct (strip p) as [|c rest] eqn:Hs.
    + left. split; [reflexivity|]. exists p.
      unfold lambda_handler in H.
      rewrite Hpre, bind_lift_ok, Hp, bind_lift_ok in H. cbv zeta in H.
      rewrite Hs in H. inversion H. auto.
    + right. split; [reflexivity|].
      destruct (get_param event (lit "negative_prompt") []) as [n|e] eqn:Hn;
        [|unfold lambda_handler in H;
          rewrite Hpre, bind_lift_ok, Hp, bind_lift_ok in H; cbv zeta in H;
          rewrite Hs, Hn in H; discriminate].
      destruct (get_param event (lit "aspect_ratio") (lit "1:1"))
        as [a|e] eqn:Ha;
        [|unfold lambda_handler in H;
          rewrite Hpre, bind_lift_ok, Hp, bind_lift_ok in H; cbv zeta in H;
          rewrite Hs, Hn, bind_lift_ok, Ha in H; discriminate].
      destruct (get_param event (lit "output_format") (lit "png"))
        as [f|e] eqn:Hf;
        [|unfold lambda_handler in H;
          rewrite Hpre, bind_lift_ok, Hp, bind_lift_ok in H; cbv zeta in H;
          rewrite Hs, Hn, bind_lift_ok, Ha, bind_lift_ok, Hf in H;
          discriminate].
      assert (Hpar : params event = Ok (strip p, strip n, strip a, strip f)).
      { unfold request_params. rewrite Hp, Hn, Ha, Hf. reflexivity. }
      assert (Hne : strip p <> []) by (rewrite Hs; discriminate).
      rewrite (handler_run o cfg event context _ _ _ _ Hpre Hpar Hne) in H. cbv zeta in H.
      exists (strip p), (strip n), (strip a), (strip f).
      destruct (provider_answer o cfg
                  (request_body (strip p) (strip n) (strip f) (strip a)))
        as [data|e]; [|discriminate].
      exists data. do 3 (split; [reflexivity || assumption|]).
      destruct (image_b64 data) as [[encoded|]|e]; [| |discriminate].
      * destruct (b64decode encoded) as [image|e] eqn:Hdec; [|discriminate].
        destruct (s3_put_object o (BUCKET_NAME cfg)
                    (storage_key cfg o (strip f)) image
                    (lit "image/" ++ strip f)) as [u|e]; [|discriminate].
        destruct (presign_answer o cfg (storage_key cfg o (strip f)))
          as [url|e] eqn:Hurl; [|discriminate].
        inversion H. right. exists encoded, image, url.
        repeat split; auto.
      * inversion H. left. auto.
  - unfold lambda_handler in H. rewrite Hpre in H. discriminate.
Qed.

Lemma handler_payload (o : Outside) (cfg : Settings) (event context : value)
    (prompt np ar fmt : pystr) :
  is_preflight event = Ok false ->
  params event = Ok (prompt, np, ar, fmt) ->
  prompt <> [] ->
  provider_payloads (snd (handler o cfg event context)) =
  [json_dumps (request_body prompt np fmt ar)].
Proof.
  intros Hpre Hpar Hne.
  rewrite (handler_run o cfg event context _ _ _ _ Hpre Hpar Hne).
  cbv zeta.
  destruct (provider_answer o cfg (request_body prompt np fmt ar))
    as [data|e]; [|reflexivity].
  destruct (image_b64 data) as [[encoded|]|e]; try reflexivity.
  destruct (b64decode encoded) as [image|e]; [|reflexivity].
  destruct (s3_put_object o (BUCKET_NAME cfg) (storage_key cfg o fmt) image
              (lit "image/" ++ fmt)) as [u|e]; [|reflexivity].
  destruct (presign_answer o cfg (storage_key cfg o fmt)) as [url|e];
    reflexivity.
Qed.


(* ----------------------------------------------------------------- *)
(** *** The provider answer *)

(** C2, as amended.  When both shape tests fail on the provider answer
    ([images] is absent or empty, and [artifacts] is absent or empty; the
    empty object is such an answer), the handler returns status 502 with
    the body [{"error": "No image in Bedrock response", "raw": <answer>}],
    and the provider call is its only effect: nothing is uploaded. *)
Theorem no_image_reported (o : Outside) (cfg : Settings)
    (event context : value) (prompt np ar fmt : pystr) (data : value) :
  is_preflight event = Ok false ->
  params event = Ok (prompt, np, ar, fmt) ->
  prompt <> [] ->
  provider_answer o cfg (request_body prompt np fmt ar) = Ok data ->
  has_nonempty data (lit "images") = Ok false ->
  has_nonempty data (lit "artifacts") = Ok false ->
  handler o cfg event context =
  (Ok {| statusCode := 502;
         headers := _headers;
         body := lit "{" ++ quoted "error" ++ lit ": " ++
                 quoted "No image in Bedrock response" ++ lit ", " ++
                 quoted "raw" ++ lit ": " ++ json_dumps data ++ lit "}" |},
   [provider_call cfg (request_body prompt np fmt ar)]).
Proof.
  intros Hpre Hpar Hne Hans Hi Ha.
  rewrite (handler_run o cfg event context _ _ _ _ Hpre Hpar Hne).
  cbv zeta. rewrite Hans. unfold image_b64. rewrite Hi. simpl. rewrite Ha.
  reflexivity.
Qed.


(* ----------------------------------------------------------------- *)
(** *** Responses *)

(** C7.  Whatever response the handler returns (preflight, 400, 502 or
    success), its headers are exactly the four CORS and content-type
    headers. *)
Theorem response_headers (o : Outside) (cfg : Settings)
    (event context : value) (r : response) (log : list effect) :
  handler o cfg event context = (Ok r, log) ->
  headers r =
  [ (lit "Content-Type", lit "application/json");
    (lit "Access-Control-Allow-Origin", lit "*");
    (lit "Access-Control-Allow-Headers", lit "Content-Type");
    (lit "Access-Control-Allow-Methods", lit "GET,OPTIONS") ].
Proof.
  intros H.
  destruct (handler_returns o cfg event context r log H)
    as [(_ & -> & _)
       |[(_ & p & _ & _ & -> & _)
        |(_ & prompt & np & ar & fmt & data & _ & _ & _ &
          [(_ & -> & _) | (enc & image & url & _ & _ & _ & -> & _)])]];
    reflexivity.
Qed.

(** C8.  A request that succeeds (the handler returns a response after an
    upload) gets status 200 and the body [{"presigned_url": <url>}], where
    the URL is the one that S3 signed for the stored key; the body has no
    other field, so the plain object URL is not part of it. *)
Theorem success_body (o : Outside) (cfg : Settings)
    (event context : value) (r : response) (log : list effect) :
  handler o cfg event context = (Ok r, log) ->
  uploaded log <> [] ->
  exists key url,
    storage_keys log = [key] /\
    presign_answer o cfg key = Ok url /\
    r = {| statusCode := 200;
           headers := _headers;
           body := lit "{" ++ quoted "presigned_url" ++ lit ": " ++
                   json_string url ++ lit "}" |}.
Proof.
  intros H Hup.
  destruct (handler_returns o cfg event context r log H)
    as [(_ & _ & ->)
       |[(_ & p & _ & _ & _ & ->)
        |(_ & prompt & np & ar & fmt & data & _ & _ & _ &
          [(_ & _ & ->) | (enc & image & url & _ & _ & Hu & -> & ->)])]];
    try (exfalso; apply Hup; reflexivity).
  exists (storage_key cfg o fmt), url.
  split; [reflexivity|]. split; [assumption | reflexivity].
Qed.

(* ----------------------------------------------------------------- *)
(** *** Storage keys *)

Lemma key_prefix_slash (cfg : Settings) :
  endswith (key_prefix cfg) (lit "/") = true.
Proof.
  unfold key_prefix.
  destruct (endswith (KEY_PREFIX cfg) (lit "/")) eqn:E; [assumption|].
  apply (endswith_snoc (KEY_PREFIX cfg) 47).
Qed.

Lemma storage_key_inj (cfg : Settings) (o1 o2 : Outside) (f1 f2 : pystr) :
  (uuid4_int o1 < 2 ^ 128)%N -> (uuid4_int o2 < 2 ^ 128)%N ->
  storage_key cfg o1 f1 = storage_key cfg o2 f2 ->
  strftime (utc_now o1) = strftime (utc_now o2) /\
  uuid4_int o1 = uuid4_int o2 /\
  f1 = f2.
Proof.
  intros H1 H2 H. unfold storage_key in H.
  apply app_inv_head in H.
  apply app_eq_length in H; [|rewrite !strftime_length; reflexivity].
  destruct H as [Hts H]. apply app_inv_head in H.
  apply app_eq_length in H;
    [|unfold uuid_hex, hex_fixed; rewrite !fixed_digits_length; reflexivity].
  destruct H as [Hh Hf]. apply app_inv_head in Hf.
  repeat split; try assumption.
  apply (hex_fixed_inj 32); assumption.
Qed.

Lemma success_key (o : Outside) (cfg : Settings) (event context : value)
    (r : response) (log : list effect) :
  handler o cfg event context = (Ok r, log) ->
  uploaded log <> [] ->
  exists f,
    get_param event (lit "output_format") (lit "png") = Ok f /\
    storage_keys log = [storage_key cfg o (strip f)].
Proof.
  intros H Hup.
  destruct (handler_returns o cfg event context r log H)
    as [(_ & _ & ->)
       |[(_ & p & _ & _ & _ & ->)
        |(_ & prompt & np & ar & fmt & data & Hpar & _ & _ &
          [(_ & _ & ->) | (enc & image & url & _ & _ & _ & -> & ->)])]];
    try (exfalso; apply Hup; reflexivity).
  destruct (params_inv _ _ _ _ _ Hpar)
    as (p & n & a & f & _ & _ & _ & Hf & _ & _ & _ & ->).
  exists f. split; [assumption | reflexivity].
Qed.

(** C5, as amended.  Each of two successful requests (the handler
    returns a response after an upload) stores its object under one key, which is the configured prefix made to end with [/],
    the UTC time of the request to the second, [-], the 32 hexadecimal
    digits of the UUID drawn for the request, [.] and the output format.
    The two keys are the same only if the two timestamps, the two UUIDs
    and the two formats are: whatever the prompts, requests for which
    different UUIDs are drawn never share a key. *)
Theorem storage_key_shape (o1 o2 : Outside) (cfg : Settings)
    (e1 e2 c1 c2 : value) (r1 r2 : response) (log1 log2 : list effect) :
  handler o1 cfg e1 c1 = (Ok r1, log1) -> uploaded log1 <> [] ->
  handler o2 cfg e2 c2 = (Ok r2, log2) -> uploaded log2 <> [] ->
  exists f1 f2,
    get_param e1 (lit "output_format") (lit "png") = Ok f1 /\
    get_param e2 (lit "output_format") (lit "png") = Ok f2 /\
    storage_keys log1 =
      [key_prefix cfg ++ strftime (utc_now o1) ++ lit "-" ++
       uuid_hex (uuid4_int o1) ++ lit "." ++ strip f1] /\
    storage_keys log2 =
      [key_prefix cfg ++ strftime (utc_now o2) ++ lit "-" ++
       uuid_hex (uuid4_int o2) ++ lit "." ++ strip f2] /\
    endswith (key_prefix cfg) (lit "/") = true /\
    ((uuid4_int o1 < 2 ^ 128)%N -> (uuid4_int o2 < 2 ^ 128)%N ->
     storage_keys log1 = storage_keys log2 ->
     strftime (utc_now o1) = strftime (utc_now o2) /\
     uuid4_int o1 = uuid4_int o2 /\
     strip f1 = strip f2).
Proof.
  intros H1 U1 H2 U2.
  destruct (success_key o1 cfg e1 c1 r1 log1 H1 U1) as (f1 & Hf1 & K1).
  destruct (success_key o2 cfg e2 c2 r2 log2 H2 U2) as (f2 & Hf2 & K2).
  exists f1, f2.
  split; [exact Hf1|]. split; [exact Hf2|].
  split; [exact K1|]. split; [exact K2|].
  split; [apply key_prefix_slash|].
  intros B1 B2 E. rewrite K1, K2 in E. inversion E as [E'].
  exact (storage_key_inj cfg o1 o2 (strip f1) (strip f2) B1 B2 E').
Qed.

(* ----------------------------------------------------------------- *)
(** *** The provider payload *)

(** The JSON text of the payload, field by field. *)
Lemma json_dumps_request_body (p n f a : pystr) :
  json_dumps (request_body p n f a) =
  lit "{" ++ quoted "prompt" ++ lit ": " ++ json_string p ++ lit ", " ++
  quoted "negative_prompt" ++ lit ": " ++ json_string n ++ lit ", " ++
  quoted "mode" ++ lit ": " ++ quoted "text-to-image" ++ lit ", " ++
  quoted "seed" ++ lit ": 0, " ++
  quoted "output_format" ++ lit ": " ++ json_string f ++ lit ", " ++
  quoted "aspect_ratio" ++ lit ": " ++ json_string a ++ lit "}".
Proof.
  unfold request_body, quoted, json_string. simpl.
  repeat (rewrite <- app_assoc; simpl). reflexivity.
Qed.

(** A well-formed request either gives no value to a name or gives it
    one. *)
Lemma omits_or_supplies (event : value) (name : pystr) :
  well_formed event = true ->
  omits event name = true \/ exists v, supplies event name v.
Proof.
  unfold well_formed. intros Hw.
  destruct (_qsp event) as [q|] eqn:Hq; [|discriminate].
  destruct q as [| | | | | |q]; try discriminate.
  destruct (match event with VDict d => absent d name | _ => true end)
    eqn:Hd.
  - destruct (lookup name q) as [w|] eqn:Hl.
    + destruct (is_none w) eqn:Hn.
      * left. unfold omits. rewrite Hd, Hq. unfold absent. rewrite Hl.
        exact Hn.
      * right. exists w. apply supplies_query with (q := q); try assumption.
        intros ->. discriminate.
    + left. unfold omits. rewrite Hd, Hq. unfold absent. rewrite Hl.
      reflexivity.
  - right. destruct event as [| | | | | |d]; try discriminate.
    unfold absent in Hd. destruct (lookup name d) as [v|] eqn:Hl;
      [|discriminate].
    exists v. apply supplies_direct; [assumption|].
    intros ->. discriminate.
Qed.

Lemma params_of_prompt (event : value) (p : pystr) :
  well_formed event = true ->
  get_param event (lit "prompt") [] = Ok p ->
  exists n a f,
    get_param event (lit "negative_prompt") [] = Ok n /\
    get_param event (lit "aspect_ratio") (lit "1:1") = Ok a /\
    get_param event (lit "output_format") (lit "png") = Ok f /\
    params event = Ok (strip p, strip n, strip a, strip f).
Proof.
  intros Hw Hp.
  destruct (get_param_total event (lit "negative_prompt") [] Hw) as [n Hn].
  destruct (get_param_total event (lit "aspect_ratio") (lit "1:1") Hw)
    as [a Ha].
  destruct (get_param_total event (lit "output_format") (lit "png") Hw)
    as [f Hf].
  exists n, a, f. repeat split; try assumption.
  unfold request_params. rewrite Hp, Hn, Ha, Hf. reflexivity.
Qed.

(** C6.  For a request that is no preflight and has a prompt, the payload
    sent to the provider carries [aspect_ratio] ["1:1"] when the request
    omits [aspect_ratio], and [output_format] ["png"] when it omits
    [output_format]: the JSON text sent is written out, with its six
    fields. *)
Theorem defaults_applied (o : Outside) (cfg : Settings)
    (event context : value) (p : pystr) :
  is_preflight event = Ok false ->
  get_param event (lit "prompt") [] = Ok p ->
  strip p <> [] ->
  (omits event (lit "aspect_ratio") = true ->
   exists np fmt,
     provider_payloads (snd (handler o cfg event context)) =
     [lit "{" ++ quoted "prompt" ++ lit ": " ++ json_string (strip p) ++ lit ", " ++
      quoted "negative_prompt" ++ lit ": " ++ json_string np ++ lit ", " ++
      quoted "mode" ++ lit ": " ++ quoted "text-to-image" ++ lit ", " ++
      quoted "seed" ++ lit ": 0, " ++
      quoted "output_format" ++ lit ": " ++ json_string fmt ++ lit ", " ++
      quoted "aspect_ratio" ++ lit ": " ++ quoted "1:1" ++ lit "}"]) /\
  (omits event (lit "output_format") = true ->
   exists np ar,
     provider_payloads (snd (handler o cfg event context)) =
     [lit "{" ++ quoted "prompt" ++ lit ": " ++ json_string (strip p) ++ lit ", " ++
      quoted "negative_prompt" ++ lit ": " ++ json_string np ++ lit ", " ++
      quoted "mode" ++ lit ": " ++ quoted "text-to-image" ++ lit ", " ++
      quoted "seed" ++ lit ": 0, " ++
      quoted "output_format" ++ lit ": " ++ quoted "png" ++ lit ", " ++
      quoted "aspect_ratio" ++ lit ": " ++ json_string ar ++ lit "}"]).
Proof.
  intros Hpre Hp Hne. split; intros Ho.
  - destruct (params_of_prompt event p (omits_well_formed _ _ Ho) Hp)
      as (n & a & f & _ & Ha & _ & Hpar).
    rewrite (omits_get_param event (lit "aspect_ratio") (lit "1:1") Ho) in Ha.
    inversion Ha; subst a.
    exists (strip n), (strip f).
    rewrite (handler_payload o cfg event context _ _ _ _ Hpre Hpar Hne).
    rewrite json_dumps_request_body. reflexivity.
  - destruct (params_of_prompt event p (omits_well_formed _ _ Ho) Hp)
      as (n & a & f & _ & _ & Hf & Hpar).
    rewrite (omits_get_param event (lit "output_format") (lit "png") Ho) in Hf.
    inversion Hf; subst f.
    exists (strip n), (strip a).
    rewrite (handler_payload o cfg event context _ _ _ _ Hpre Hpar Hne).
    rewrite json_dumps_request_body. reflexivity.
Qed.

(** C10.  A well-formed request with a prompt sends a payload whose
    [aspect_ratio] and [output_format] fields are as follows.  When the
    request gives one of them a string made of whitespace only, the field
    holds the empty string: the value given, stripped, and not the
    default.  In general the field holds the default (["1:1"], ["png"])
    when the request gives the parameter no value in either source, and
    otherwise the stripped text of the value given: the default is applied
    only when the parameter is absent from both sources. *)
Theorem blank_option_not_defaulted (o : Outside) (cfg : Settings)
    (event context : value) (p : pystr) :
  well_formed event = true ->
  is_preflight event = Ok false ->
  get_param event (lit "prompt") [] = Ok p ->
  strip p <> [] ->
  exists np ar fmt,
    provider_payloads (snd (handler o cfg event context)) =
    [lit "{" ++ quoted "prompt" ++ lit ": " ++ json_string (strip p) ++ lit ", " ++
     quoted "negative_prompt" ++ lit ": " ++ json_string np ++ lit ", " ++
     quoted "mode" ++ lit ": " ++ quoted "text-to-image" ++ lit ", " ++
     quoted "seed" ++ lit ": 0, " ++
     quoted "output_format" ++ lit ": " ++ json_string fmt ++ lit ", " ++
     quoted "aspect_ratio" ++ lit ": " ++ json_string ar ++ lit "}"] /\
    (forall s, supplies event (lit "aspect_ratio") (VStr s) ->
               strip s = [] -> ar = []) /\
    (forall s, supplies event (lit "output_format") (VStr s) ->
               strip s = [] -> fmt = []) /\
    ((omits event (lit "aspect_ratio") = true /\ ar = lit "1:1") \/
     (exists v, supplies event (lit "aspect_ratio") v /\
                ar = strip (py_str unicode_isprintable v))) /\
    ((omits event (lit "output_format") = true /\ fmt = lit "png") \/
     (exists v, supplies event (lit "output_format") v /\
                fmt = strip (py_str unicode_isprintable v))).
Proof.
  intros Hw Hpre Hp Hne.
  destruct (params_of_prompt event p Hw Hp) as (n & a & f & _ & Ha & Hf & Hpar).
  exists (strip n), (strip a), (strip f).
  split.
  { rewrite (handler_payload o cfg event context _ _ _ _ Hpre Hpar Hne).
    rewrite json_dumps_request_body. reflexivity. }
  split.
  { intros s Hsup Hs.
    rewrite (supplies_get_param event (lit "aspect_ratio") (lit "1:1")
               (VStr s) Hsup) in Ha.
    inversion Ha; subst a. exact Hs. }
  split.
  { intros s Hsup Hs.
    rewrite (supplies_get_param event (lit "output_format") (lit "png")
               (VStr s) Hsup) in Hf.
    inversion Hf; subst f. exact Hs. }
  split.
  - destruct (omits_or_supplies event (lit "aspect_ratio") Hw)
      as [Ho | (v & Hv)].
    + left. split; [exact Ho|].
      rewrite (omits_get_param event (lit "aspect_ratio") (lit "1:1") Ho)
        in Ha.
      inversion Ha; subst a. reflexivity.
    + right. exists v. split; [exact Hv|].
      rewrite (supplies_get_param event (lit "aspect_ratio") (lit "1:1")
                 v Hv) in Ha.
      inversion Ha; subst a. reflexivity.
  - destruct (omits_or_supplies event (lit "output_format") Hw)
      as [Ho | (v & Hv)].
    + left. split; [exact Ho|].
      rewrite (omits_get_param event (lit "output_format") (lit "png") Ho)
        in Hf.
      inversion Hf; subst f. reflexivity.
    + right. exists v. split; [exact Hv|].
      rewrite (supplies_get_param event (lit "output_format") (lit "png")
                 v Hv) in Hf.
      inversion Hf; subst f. reflexivity.
Qed.

End Properties.

(* ================================================================= *)
(** ** The model at work *)

Example strip_unicode : strip [160; 9; 97; 32; 98; 8195; 10]%N = lit "a b".
Proof. reflexivity. Qed.

Example b64decode_QUJD :
  b64decode_canonical (VStr (lit "QUJD")) = Ok [65; 66; 67]%N.
Proof. reflexivity. Qed.

Example b64decode_padded :
  b64decode_canonical (VStr (lit "QUI=")) = Ok [65; 66]%N /\
  b64decode_canonical (VStr (lit "QQ==")) = Ok [65]%N.
Proof. split; reflexivity. Qed.

Example b64decode_none : b64decode_canonical VNone = Raise TypeError.
Proof. reflexivity. Qed.

Example cat_payload_text :
  json_dumps cat_payload =
  lit "{" ++ quoted "prompt" ++ lit ": " ++ quoted "a cat" ++ lit ", " ++
  quoted "negative_prompt" ++ lit ": " ++ quoted "" ++ lit ", " ++
  quoted "mode" ++ lit ": " ++ quoted "text-to-image" ++ lit ", " ++
  quoted "seed" ++ lit ": 0, " ++
  quoted "output_format" ++ lit ": " ++ quoted "png" ++ lit ", " ++
  quoted "aspect_ratio" ++ lit ": " ++ quoted "1:1" ++ lit "}".
Proof. reflexivity. Qed.

Example json_escapes :
  json_dumps (VList [VStr [34; 233; 128512]%N; VInt (-12); VNone;
                     VFloat (lit "1.5")]) =
  lit "[" ++ [34; 92; 34]%N ++ lit "\u00e9\ud83d\ude00" ++ [34%N] ++
  lit ", -12, null, 1.5]".
Proof. reflexivity. Qed.

Example str_of_number_prompt :
  _get_param isprintable_latin1 (VDict [(lit "prompt", VInt 5)])
    (lit "prompt") [] = Ok (lit "5").
Proof. reflexivity. Qed.

Example str_of_list_prompt :
  _get_param isprintable_latin1
    (VDict [(lit "prompt", VList [VStr (lit "a"); VBool true; VNone])])
    (lit "prompt") [] = Ok (lit "['a', True, None]").
Proof. reflexivity. Qed.

(** An event that is neither a map nor empty has no [get]. *)
Example list_event_raises :
  sample_handler (VDict images_answer) 7 (VList [VInt 1]) =
  (Raise AttributeError, []).
Proof. reflexivity. Qed.

(** Query-string parameters that are no map stop the handler as soon as it
    looks into them. *)
Example malformed_query_raises :
  sample_handler (VDict images_answer) 7
    (VDict [(lit "prompt", VStr (lit "a cat"));
            (lit "queryStringParameters", VStr (lit "prompt=x"))]) =
  (Raise AttributeError, []).
Proof. reflexivity. Qed.

(** [images] is looked at first. *)
Example images_before_artifacts :
  uploaded
    (snd (sample_handler
            (VDict [(lit "artifacts",
                     VList [VDict [(lit "base64", VStr (lit "QUI="))]]);
                    (lit "images", VList [VStr (lit "QUJD")])])
            7 cat_event)) =
  [[65; 66; 67]%N].
Proof. reflexivity. Qed.

Example sample_key_text :
  sample_key (2 ^ 127 + 10) =
  lit "generated/20240309T070542Z-8000000000000000000000000000000a.png".
Proof. reflexivity. Qed.

Example default_settings :
  load_settings (fun _ => Ok 3600%Z) [] = Ok sample_settings.
Proof. reflexivity. Qed.

Example prefix_normalised :
  key_prefix {| MODEL_ID := []; BUCKET_NAME := [];
                KEY_PREFIX := lit "posters"; URL_EXPIRES_SECONDS := 60 |} =
  lit "posters/".
Proof. reflexivity. Qed.

(* ================================================================= *)
(** ** The properties at sample requests *)

Lemma options_preflight_witness :
  lookup (lit "httpMethod")
    [(lit "prompt", VStr (lit "a cat"));
     (lit "httpMethod", VStr (lit "OPTIONS"))] =
    Some (VStr (lit "OPTIONS")) /\
  sample_handler (VDict images_answer) 7
    (VDict [(lit "prompt", VStr (lit "a cat"));
            (lit "httpMethod", VStr (lit "OPTIONS"))]) =
  (Ok {| statusCode := 200;
         headers := _headers;
         body := lit "{" ++ quoted "ok" ++ lit ": true}" |},
   []).
Proof.
  split; [reflexivity|].
  apply (options_preflight isprintable_latin1 b64decode_canonical
           (sample_outside (VDict images_answer) 7) sample_settings
           [(lit "prompt", VStr (lit "a cat"));
            (lit "httpMethod", VStr (lit "OPTIONS"))] VNone).
  reflexivity.
Defined.

Lemma missing_prompt_rejected_witness :
  (is_preflight blank_event = Ok false /\
   _get_param isprintable_latin1 blank_event (lit "prompt") [] =
     Ok (lit "   ") /\
   strip (lit "   ") = [] /\
   sample_handler (VDict images_answer) 7 blank_event =
   (Ok {| statusCode := 400;
          headers := _headers;
          body := lit "{" ++ quoted "error" ++ lit ": " ++
                  quoted "Missing required parameter: prompt" ++ lit "}" |},
    [])) /\
  (_get_param isprintable_latin1 no_query_event (lit "prompt") [] = Ok [] /\
   sample_handler (VDict images_answer) 7 no_query_event =
   (Ok missing_prompt_response, [])) /\
  (_get_param isprintable_latin1 empty_prompt_event (lit "prompt") [] =
     Ok [] /\
   sample_handler (VDict images_answer) 7 empty_prompt_event =
   (Ok missing_prompt_response, [])).
Proof.
  split; [|split].
  - do 3 (split; [reflexivity|]).
    apply (missing_prompt_rejected isprintable_latin1 b64decode_canonical
             (sample_outside (VDict images_answer) 7) sample_settings
             blank_event VNone (lit "   ")); reflexivity.
  - split; [reflexivity|].
    apply (missing_prompt_rejected isprintable_latin1 b64decode_canonical
             (sample_outside (VDict images_answer) 7) sample_settings
             no_query_event VNone []); reflexivity.
  - split; [reflexivity|].
    apply (missing_prompt_rejected isprintable_latin1 b64decode_canonical
             (sample_outside (VDict images_answer) 7) sample_settings
             empty_prompt_event VNone []); reflexivity.
Defined.

Lemma direct_field_first_witness :
  _get_param isprintable_latin1 (VDict both_sources_event) (lit "prompt") [] =
    Ok (lit "direct") /\
  _get_param isprintable_latin1 (VDict query_only_event) (lit "prompt") [] =
    Ok (lit "query").
Proof.
  split.
  - apply (proj1 (direct_field_first isprintable_latin1 both_sources_event []
                    (lit "prompt") [] (VStr (lit "direct")) VNone)).
    + reflexivity.
    + discriminate.
  - apply (proj2 (direct_field_first isprintable_latin1 query_only_event
                    [(lit "prompt", VStr (lit "query"))]
                    (lit "prompt") [] VNone (VStr (lit "query")))).
    + reflexivity.
    + reflexivity.
    + reflexivity.
    + discriminate.
Defined.

Lemma no_image_reported_witness :
  is_preflight cat_event = Ok false /\
  request_params isprintable_latin1 cat_event =
    Ok (lit "a cat", [], lit "1:1", lit "png") /\
  lit "a cat" <> [] /\
  provider_answer (sample_outside (VDict []) 7) sample_settings cat_payload =
    Ok (VDict []) /\
  has_nonempty (VDict []) (lit "images") = Ok false /\
  has_nonempty (VDict []) (lit "artifacts") = Ok false /\
  sample_handler (VDict []) 7 cat_event =
  (Ok {| statusCode := 502;
         headers := _headers;
         body := lit "{" ++ quoted "error" ++ lit ": " ++
                 quoted "No image in Bedrock response" ++ lit ", " ++
                 quoted "raw" ++ lit ": {}}" |},
   [provider_call sample_settings cat_payload]).
Proof.
  do 2 (split; [reflexivity|]). split; [discriminate|].
  do 3 (split; [reflexivity|]).
  apply (no_image_reported isprintable_latin1 b64decode_canonical
           (sample_outside (VDict []) 7) sample_settings cat_event VNone
           (lit "a cat") [] (lit "1:1") (lit "png") (VDict []));
    try reflexivity; discriminate.
Defined.

(** C2, as stated, fails.  The provider answer [{"artifacts": [{}]}] has no
    [images] field and its first artifact has no [base64] field, so
    neither shape yields an image; the handler passes [None] to the
    decoder and ends with a [TypeError] instead of the 502 response. *)
Lemma no_image_unreported :
  lookup (lit "images") no_base64_answer = None /\
  lookup (lit "artifacts") no_base64_answer = Some (VList [VDict []]) /\
  lookup (lit "base64") [] = None /\
  image_b64 (VDict no_base64_answer) = Ok (Some VNone) /\
  sample_handler (VDict no_base64_answer) 7 cat_event =
  (Raise TypeError, [provider_call sample_settings cat_payload]).
Proof. repeat split; reflexivity. Qed.


Lemma storage_key_shape_witness :
  sample_handler (VDict images_answer) 7 cat_event =
    (Ok (success_response sample_url), sample_log 7) /\
  sample_handler (VDict images_answer) 8 cat_event =
    (Ok (success_response sample_url), sample_log 8) /\
  storage_keys (sample_log 7) =
    [lit "generated/20240309T070542Z-00000000000000000000000000000007.png"] /\
  storage_keys (sample_log 7) <> storage_keys (sample_log 8).
Proof.
  do 3 (split; [reflexivity|]).
  destruct (storage_key_shape isprintable_latin1 b64decode_canonical
              (sample_outside (VDict images_answer) 7)
              (sample_outside (VDict images_answer) 8)
              sample_settings cat_event cat_event VNone VNone
              (success_response sample_url) (success_response sample_url)
              (sample_log 7) (sample_log 8)
              eq_refl ltac:(discriminate) eq_refl ltac:(discriminate))
    as (f1 & f2 & _ & _ & _ & _ & _ & Hsame).
  intros E. destruct (Hsame eq_refl eq_refl E) as (_ & Hu & _).
  discriminate Hu.
Defined.

(** C5, as stated, fails: nothing but the UUID separates the keys of two
    requests served within the same second.  Two successful requests with
    different prompts for which the same UUID is drawn store their images
    under the same key. *)
Lemma same_uuid_same_key :
  fst (sample_handler (VDict images_answer) 7 cat_event) =
    Ok (success_response sample_url) /\
  fst (sample_handler (VDict artifacts_answer) 7 dog_event) =
    Ok (success_response sample_url) /\
  provider_payloads (snd (sample_handler (VDict images_answer) 7 cat_event)) <>
  provider_payloads
    (snd (sample_handler (VDict artifacts_answer) 7 dog_event)) /\
  storage_keys (snd (sample_handler (VDict images_answer) 7 cat_event)) =
  storage_keys (snd (sample_handler (VDict artifacts_answer) 7 dog_event)).
Proof. repeat split; try reflexivity. discriminate. Qed.

Lemma defaults_applied_witness :
  is_preflight cat_event = Ok false /\
  _get_param isprintable_latin1 cat_event (lit "prompt") [] =
    Ok (lit " a cat ") /\
  omits cat_event (lit "aspect_ratio") = true /\
  omits cat_event (lit "output_format") = true /\
  (exists np fmt,
     provider_payloads (snd (sample_handler (VDict []) 7 cat_event)) =
     [lit "{" ++ quoted "prompt" ++ lit ": " ++ quoted "a cat" ++ lit ", " ++
      quoted "negative_prompt" ++ lit ": " ++ json_string np ++ lit ", " ++
      quoted "mode" ++ lit ": " ++ quoted "text-to-image" ++ lit ", " ++
      quoted "seed" ++ lit ": 0, " ++
      quoted "output_format" ++ lit ": " ++ json_string fmt ++ lit ", " ++
      quoted "aspect_ratio" ++ lit ": " ++ quoted "1:1" ++ lit "}"]) /\
  (exists np ar,
     provider_payloads (snd (sample_handler (VDict []) 7 cat_event)) =
     [lit "{" ++ quoted "prompt" ++ lit ": " ++ quoted "a cat" ++ lit ", " ++
      quoted "negative_prompt" ++ lit ": " ++ json_string np ++ lit ", " ++
      quoted "mode" ++ lit ": " ++ quoted "text-to-image" ++ lit ", " ++
      quoted "seed" ++ lit ": 0, " ++
      quoted "output_format" ++ lit ": " ++ quoted "png" ++ lit ", " ++
      quoted "aspect_ratio" ++ lit ": " ++ json_string ar ++ lit "}"]).
Proof.
  do 4 (split; [reflexivity|]).
  destruct (defaults_applied isprintable_latin1 b64decode_canonical
              (sample_outside (VDict []) 7) sample_settings cat_event VNone
              (lit " a cat ") eq_refl eq_refl) as [Ha Hf];
    [discriminate|].
  split; [exact (Ha eq_refl) | exact (Hf eq_refl)].
Defined.

Lemma response_headers_witness :
  sample_handler (VDict images_answer) 7 cat_event =
    (Ok (success_response sample_url), sample_log 7) /\
  headers (success_response sample_url) =
  [ (lit "Content-Type", lit "application/json");
    (lit "Access-Control-Allow-Origin", lit "*");
    (lit "Access-Control-Allow-Headers", lit "Content-Type");
    (lit "Access-Control-Allow-Methods", lit "GET,OPTIONS") ].
Proof.
  split; [reflexivity|].
  apply (response_headers isprintable_latin1 b64decode_canonical
           (sample_outside (VDict images_answer) 7) sample_settings
           cat_event VNone (success_response sample_url) (sample_log 7)).
  reflexivity.
Defined.

Lemma success_body_witness :
  sample_handler (VDict images_answer) 7 cat_event =
    (Ok (success_response sample_url), sample_log 7) /\
  uploaded (sample_log 7) = [[65; 66; 67]%N] /\
  exists key url,
    storage_keys (sample_log 7) = [key] /\
    presign_answer (sample_outside (VDict images_answer) 7) sample_settings
      key = Ok url /\
    success_response sample_url =
    {| statusCode := 200;
       headers := _headers;
       body := lit "{" ++ quoted "presigned_url" ++ lit ": " ++
               json_string url ++ lit "}" |}.
Proof.
  do 2 (split; [reflexivity|]).
  apply (success_body isprintable_latin1 b64decode_canonical
           (sample_outside (VDict images_answer) 7) sample_settings
           cat_event VNone (success_response sample_url) (sample_log 7));
    [reflexivity | discriminate].
Defined.

Lemma blank_option_not_defaulted_witness :
  well_formed blank_options_event = true /\
  is_preflight blank_options_event = Ok false /\
  strip (lit "  ") = [] /\
  supplies blank_options_event (lit "aspect_ratio") (VStr (lit "  ")) /\
  supplies blank_options_event (lit "output_format") (VStr (lit "  ")) /\
  exists np,
    provider_payloads
      (snd (sample_handler (VDict []) 7 blank_options_event)) =
    [lit "{" ++ quoted "prompt" ++ lit ": " ++ quoted "a cat" ++ lit ", " ++
     quoted "negative_prompt" ++ lit ": " ++ json_string np ++ lit ", " ++
     quoted "mode" ++ lit ": " ++ quoted "text-to-image" ++ lit ", " ++
     quoted "seed" ++ lit ": 0, " ++
     quoted "output_format" ++ lit ": " ++ quoted "" ++ lit ", " ++
     quoted "aspect_ratio" ++ lit ": " ++ quoted "" ++ lit "}"].
Proof.
  assert (Sa : supplies blank_options_event (lit "aspect_ratio")
                 (VStr (lit "  ")))
    by (apply supplies_direct; [reflexivity | discriminate]).
  assert (Sf : supplies blank_options_event (lit "output_format")
                 (VStr (lit "  ")))
    by (apply supplies_query
          with (q := [(lit "output_format", VStr (lit "  "))]);
        [reflexivity | reflexivity | reflexivity | discriminate]).
  do 3 (split; [reflexivity|]).
  split; [exact Sa|]. split; [exact Sf|].
  destruct (blank_option_not_defaulted isprintable_latin1 b64decode_canonical
              (sample_outside (VDict []) 7) sample_settings
              blank_options_event VNone (lit "a cat")
              eq_refl eq_refl eq_refl ltac:(discriminate))
    as (np & ar & fmt & Hpay & Har & Hfmt & _ & _).
  rewrite (Har (lit "  ") Sa eq_refl), (Hfmt (lit "  ") Sf eq_refl) in Hpay.
  exists np. exact Hpay.
Defined.

(* ================================================================= *)
(** ** Trimming *)

Lemma lstrip_nil_iff (s : pystr) : lstrip s = [] <-> forallb isspace s = true.
Proof.
  induction s as [|c s IH]; simpl; [tauto|].
  destruct (isspace c); simpl; [exact IH|].
  split; discriminate.
Qed.

Lemma lstrip_head (s r : pystr) (c : N) :
  lstrip s = c :: r -> isspace c = false.
Proof.
  induction s as [|x s IH]; simpl; [discriminate|].
  destruct (isspace x) eqn:E; [exact IH|].
  intros H. inversion H; subst. exact E.
Qed.

Lemma lstrip_fixed (s : pystr) (c : N) :
  isspace c = false -> lstrip (c :: s) = c :: s.
Proof. intros E. simpl. rewrite E. reflexivity. Qed.

(** What [lstrip] removes is whitespace. *)
Lemma lstrip_split (s : pystr) :
  exists w, s = w ++ lstrip s /\ forallb isspace w = true.
Proof.
  induction s as [|c s (w & Hs & Hw)]; simpl.
  - exists []. auto.
  - destruct (isspace c) eqn:E.
    + exists (c :: w). simpl. rewrite E, Hw. split; [congruence | reflexivity].
    + exists []. auto.
Qed.

Lemma lstrip_idempotent (s : pystr) : lstrip (lstrip s) = lstrip s.
Proof.
  destruct (lstrip s) as [|c r] eqn:E; [reflexivity|].
  apply lstrip_fixed. exact (lstrip_head s r c E).
Qed.

Lemma forallb_rev {A} (f : A -> bool) (l : list A) :
  forallb f (rev l) = forallb f l.
Proof.
  induction l as [|x l IH]; simpl; [reflexivity|].
  rewrite forallb_app, IH. simpl. rewrite andb_true_r. apply andb_comm.
Qed.

(** A string is trimmed to nothing exactly when all its characters are
    whitespace. *)
Lemma strip_nil_iff (s : pystr) : strip s = [] <-> forallb isspace s = true.
Proof.
  unfold strip, rstrip. rewrite <- lstrip_nil_iff.
  split.
  - intros H. apply (f_equal (@rev N)) in H. rewrite rev_involutive in H.
    simpl in H. apply lstrip_nil_iff in H. rewrite forallb_rev in H.
    apply lstrip_nil_iff in H. rewrite lstrip_idempotent in H. exact H.
  - intros H. rewrite H. reflexivity.
Qed.

(** A trimmed string neither starts nor ends with whitespace, so trimming
    it again changes nothing. *)
Lemma strip_idempotent (s : pystr) : strip (strip s) = strip s.
Proof.
  unfold strip at 1.
  assert (Hl : lstrip (strip s) = strip s).
  { unfold strip, rstrip.
    destruct (lstrip_split (rev (lstrip s))) as (w & Hs & _).
    destruct (rev (lstrip (rev (lstrip s)))) as [|c r] eqn:E; [reflexivity|].
    apply lstrip_fixed.
    apply (f_equal (@rev N)) in Hs. rewrite rev_involutive, rev_app_distr in Hs.
    rewrite E in Hs. simpl in Hs.
    exact (lstrip_head s (r ++ rev w) c Hs). }
  rewrite Hl. unfold strip, rstrip.
  rewrite rev_involutive, lstrip_idempotent. reflexivity.
Qed.

(* ================================================================= *)
(** ** Further properties of the handler *)

Section Behaviour.

Variable unicode_isprintable : N -> bool.
Variable b64decode : value -> result bytes.

#[local] Abbreviation get_param := (_get_param unicode_isprintable).
#[local] Abbreviation handler := (lambda_handler unicode_isprintable b64decode).
#[local] Abbreviation params := (request_params unicode_isprintable).

(* ----------------------------------------------------------------- *)
(** *** What can go wrong while the request is read *)

Lemma dot_get_raise (v : value) (k : pystr) (e : exn) :
  dot_get v k = Raise e -> e = AttributeError /\ is_dict v = false.
Proof. destruct v; simpl; intros H; inversion H; auto. Qed.

Lemma py_or_not_dict (v : value) :
  is_dict v = false -> truthy v = false -> py_or v (VDict []) = VDict [].
Proof. intros _ Ht. unfold py_or. rewrite Ht. reflexivity. Qed.

Lemma qsp_raise (event : value) (e : exn) :
  _qsp event = Raise e -> e = AttributeError.
Proof.
  unfold _qsp. destruct (dot_get (py_or event (VDict [])) _) eqn:E;
    simpl; [discriminate|].
  intros H. inversion H; subst. exact (proj1 (dot_get_raise _ _ _ E)).
Qed.

Lemma get_param_raise (event : value) (name default : pystr) (e : exn) :
  get_param event name default = Raise e -> e = AttributeError.
Proof.
  unfold _get_param.
  destruct (if is_dict event
            then x <-- dot_get event name ;; Ok (negb (is_none x))
            else Ok false) as [[|]|e1] eqn:Hd; simpl.
  - destruct event; simpl in *; discriminate.
  - destruct (_qsp event) as [q|e'] eqn:Hq; simpl.
    + destruct (dot_get q name) as [x|e''] eqn:Hx; simpl.
      * destruct (is_none x); discriminate.
      * intros H; inversion H; subst.
        exact (proj1 (dot_get_raise _ _ _ Hx)).
    + intros H; inversion H; subst. exact (qsp_raise _ _ Hq).
  - destruct event; simpl in *; discriminate.
Qed.

Lemma get_param_given (event : value) (name default : pystr) :
  gives_directly event name = true ->
  exists s, get_param event name default = Ok s.
Proof.
  destruct event; simpl; try discriminate.
  unfold absent, _get_param. simpl.
  destruct (lookup name d) as [v|]; [|discriminate].
  destruct (is_none v); [discriminate|]. simpl.
  intros _. eexists; reflexivity.
Qed.

(** X1.  [_get_param] either returns a string or raises
    [AttributeError], and it raises exactly when the direct field map
    gives no value to the name and the request is not well formed (it is
    neither a map nor empty, or its query-string parameters are neither a
    map nor empty). *)
Theorem get_param_error (event : value) (name default : pystr) :
  (gives_directly event name || well_formed event = true ->
   exists s, get_param event name default = Ok s) /\
  (gives_directly event name || well_formed event = false ->
   get_param event name default = Raise AttributeError).
Proof.
  split.
  - rewrite orb_true_iff. intros [H|H].
    + apply get_param_given; assumption.
    + apply get_param_total; assumption.
  - rewrite orb_false_iff. intros [Hg Hw].
    destruct (get_param event name default) as [s|e] eqn:E.
    + exfalso. unfold _get_param in E.
      assert (Hd : (if is_dict event
                    then x <-- dot_get event name ;; Ok (negb (is_none x))
                    else Ok false) = Ok false).
      { destruct event; try reflexivity. simpl in *. unfold absent in Hg.
        destruct (lookup name d) as [v|]; simpl in *;
          [destruct (is_none v); [reflexivity | discriminate] | reflexivity]. }
      rewrite Hd in E. simpl in E. unfold well_formed in Hw.
      destruct (_qsp event) as [q|]; [|discriminate].
      destruct q; simpl in E; try discriminate.
    + rewrite (get_param_raise _ _ _ _ E). reflexivity.
Qed.

Lemma is_preflight_true_inv (event : value) :
  is_preflight event = Ok true ->
  exists d, event = VDict d /\
            lookup (lit "httpMethod") d = Some (VStr (lit "OPTIONS")).
Proof.
  unfold is_preflight, py_or.
  destruct (truthy event) eqn:T; [|simpl; discriminate].
  destruct event; simpl; try discriminate.
  destruct (lookup (lit "httpMethod") d) as [v|] eqn:L; simpl;
    [|discriminate].
  destruct v; simpl; try discriminate.
  intros H. inversion H as [H']. apply pystr_eqb_eq in H'. subst s.
  exists d. auto.
Qed.

Lemma is_preflight_raise (event : value) (e : exn) :
  is_preflight event = Raise e -> e = AttributeError.
Proof.
  unfold is_preflight.
  destruct (dot_get (py_or event (VDict [])) (lit "httpMethod")) eqn:E;
    simpl; [discriminate|].
  intros H. inversion H; subst. exact (proj1 (dot_get_raise _ _ _ E)).
Qed.

(** Before any effect the handler ends in one of three ways, or it has
    read a request with a prompt. *)
Lemma handler_early (o : Outside) (cfg : Settings) (event context : value) :
  (exists prompt np ar fmt,
     is_preflight event = Ok false /\
     params event = Ok (prompt, np, ar, fmt) /\ prompt <> []) \/
  (snd (handler o cfg event context) = [] /\
   ((is_preflight event = Ok true /\
     fst (handler o cfg event context) = Ok preflight_response) \/
    (is_preflight event = Ok false /\
     (exists p, get_param event (lit "prompt") [] = Ok p /\ strip p = []) /\
     fst (handler o cfg event context) = Ok missing_prompt_response) \/
    (params event = Raise AttributeError \/
     is_preflight event = Raise AttributeError) /\
    fst (handler o cfg event context) = Raise AttributeError)).
Proof.
  unfold request_params, lambda_handler.
  destruct (is_preflight event) as [[|]|e] eqn:Hpre.
  - right. rewrite bind_lift_ok. split; [reflexivity|]. left. auto.
  - rewrite bind_lift_ok. cbv iota.
    destruct (get_param event (lit "prompt") []) as [p|e] eqn:Hp.
    2:{ right. rewrite (get_param_raise _ _ _ _ Hp).
        split; [reflexivity|]. right; right. auto. }
    rewrite bind_lift_ok. cbv zeta.
    destruct (strip p) as [|c rest] eqn:Hs.
    { right. split; [reflexivity|]. right; left.
      split; [reflexivity|]. split; [exists p; auto | reflexivity]. }
    destruct (get_param event (lit "negative_prompt") []) as [n|e] eqn:Hn.
    2:{ right. rewrite (get_param_raise _ _ _ _ Hn).
        split; [reflexivity|]. right; right. auto. }
    rewrite bind_lift_ok.
    destruct (get_param event (lit "aspect_ratio") (lit "1:1"))
      as [a|e] eqn:Ha.
    2:{ right. rewrite (get_param_raise _ _ _ _ Ha).
        split; [reflexivity|]. right; right. auto. }
    rewrite bind_lift_ok.
    destruct (get_param event (lit "output_format") (lit "png"))
      as [f|e] eqn:Hf.
    2:{ right. rewrite (get_param_raise _ _ _ _ Hf).
        split; [reflexivity|]. right; right. auto. }
    left. exists (c :: rest), (strip n), (strip a), (strip f).
    simpl. rewrite Hs. repeat split; try reflexivity. discriminate.
  - right. rewrite (is_preflight_raise _ _ Hpre).
    split; [reflexivity|]. right; right. auto.
Qed.

(* ----------------------------------------------------------------- *)
(** *** Preflight and validation, conversely *)

(** X2.  The preflight response is returned for the requests whose
    [httpMethod] is [OPTIONS] and for no other: the test is exact, it
    knows no other spelling and no other type. *)
Theorem preflight_only_for_options (o : Outside) (cfg : Settings)
    (event context : value) :
  fst (handler o cfg event context) = Ok preflight_response <->
  exists d, event = VDict d /\
            lookup (lit "httpMethod") d = Some (VStr (lit "OPTIONS")).
Proof.
  split.
  - intros H.
    destruct (handler o cfg event context) as [res log] eqn:Hrun.
    simpl in H. subst res.
    destruct (handler_returns unicode_isprintable b64decode
                o cfg event context _ _ Hrun)
      as [(Hp & _)
         |[(_ & p & _ & _ & Hr & _)
          |(_ & prompt & np & ar & fmt & data & _ & _ & _ &
            [(_ & Hr & _) | (enc & image & url & _ & _ & _ & Hr & _)])]];
      try discriminate Hr.
    exact (is_preflight_true_inv event Hp).
  - intros (d & -> & Hl). unfold lambda_handler.
    rewrite (is_preflight_options d Hl), bind_lift_ok. reflexivity.
Qed.

(** X3.  A request that is no map is read as the empty request when it
    is falsy ([None], [False], [0], the empty string or list), and is
    then answered 400; any other one has no [get], and the handler raises
    [AttributeError].  Nothing is done to the outside world in either
    case. *)
Theorem non_map_event (o : Outside) (cfg : Settings)
    (event context : value) :
  is_dict event = false ->
  handler o cfg event context =
  if truthy event then (Raise AttributeError, [])
  else (Ok missing_prompt_response, []).
Proof.
  intros Hd.
  destruct (truthy event) eqn:T.
  - assert (Hpre : is_preflight event = Raise AttributeError).
    { unfold is_preflight, py_or. rewrite T.
      destruct event; try reflexivity. discriminate. }
    unfold lambda_handler. rewrite Hpre. reflexivity.
  - assert (Hpre : is_preflight event = Ok false).
    { unfold is_preflight, py_or. rewrite T. reflexivity. }
    assert (Hp : get_param event (lit "prompt") [] = Ok []).
    { unfold _get_param, _qsp, py_or. rewrite Hd, T. reflexivity. }
    unfold lambda_handler.
    rewrite Hpre, bind_lift_ok, Hp, bind_lift_ok. reflexivity.
Qed.

(** X4.  When the request gives a string as its prompt, the handler
    answers 400 exactly when every character of the string is whitespace
    (in the sense of [str.isspace], Unicode spaces included). *)
Theorem blank_prompt_iff (o : Outside) (cfg : Settings)
    (event context : value) (s : pystr) :
  is_preflight event = Ok false ->
  supplies event (lit "prompt") (VStr s) ->
  (handler o cfg event context = (Ok missing_prompt_response, []) <->
   forallb isspace s = true).
Proof.
  intros Hpre Hsup.
  pose proof (supplies_get_param unicode_isprintable event (lit "prompt") []
                (VStr s) Hsup) as Hp.
  simpl in Hp. rewrite <- strip_nil_iff. split.
  - intros H.
    destruct (handler_returns unicode_isprintable b64decode
                o cfg event context _ _ H)
      as [(Hp' & _)
         |[(_ & p & Hp' & Hs & _)
          |(_ & prompt & np & ar & fmt & data & _ & _ & _ &
            [(_ & _ & Hl) | (enc & image & url & _ & _ & _ & _ & Hl)])]];
      try discriminate Hl.
    + rewrite Hpre in Hp'. discriminate.
    + rewrite Hp in Hp'. inversion Hp'. subst p. exact Hs.
  - intros Hs. unfold lambda_handler.
    rewrite Hpre, bind_lift_ok, Hp, bind_lift_ok. cbv zeta. rewrite Hs.
    reflexivity.
Qed.

(** X5.  A request of which one of the four parameters cannot be read
    never reaches a backend: the handler answers 400 (its prompt is blank)
    or raises [AttributeError], and its effect log is empty. *)
Theorem unreadable_request_no_effect (o : Outside) (cfg : Settings)
    (event context : value) (e : exn) :
  is_preflight event = Ok false ->
  params event = Raise e ->
  snd (handler o cfg event context) = [] /\
  (fst (handler o cfg event context) = Ok missing_prompt_response \/
   fst (handler o cfg event context) = Raise AttributeError).
Proof.
  intros Hpre Hpar.
  destruct (handler_early o cfg event context)
    as [(prompt & np & ar & fmt & _ & Hok & _)
       |(Hlog & [(Ht & _) | [(_ & _ & Hr) | (_ & Hr)]])].
  - rewrite Hok in Hpar. discriminate.
  - rewrite Hpre in Ht. discriminate.
  - auto.
  - auto.
Qed.

(* ----------------------------------------------------------------- *)
(** *** The effects of a run *)

(** The effect log of any run, whatever its outcome. *)
Lemma handler_log (o : Outside) (cfg : Settings) (event context : value) :
  snd (handler o cfg event context) = [] \/
  exists prompt np ar fmt,
    is_preflight event = Ok false /\
    params event = Ok (prompt, np, ar, fmt) /\ prompt <> [] /\
    (snd (handler o cfg event context) =
       [provider_call cfg (request_body prompt np fmt ar)] \/
     exists data encoded image,
       provider_answer o cfg (request_body prompt np fmt ar) = Ok data /\
       image_b64 data = Ok (Some encoded) /\
       b64decode encoded = Ok image /\
       (snd (handler o cfg event context) =
          [provider_call cfg (request_body prompt np fmt ar);
           put_call cfg (storage_key cfg o fmt) image fmt] \/
        snd (handler o cfg event context) =
          [provider_call cfg (request_body prompt np fmt ar);
           put_call cfg (storage_key cfg o fmt) image fmt;
           presign_call cfg (storage_key cfg o fmt)] \/
        exists url,
          presign_answer o cfg (storage_key cfg o fmt) = Ok url /\
          snd (handler o cfg event context) =
            [provider_call cfg (request_body prompt np fmt ar);
             put_call cfg (storage_key cfg o fmt) image fmt;
             presign_call cfg (storage_key cfg o fmt)] ++
            debug_prints url)).
Proof.
  destruct (handler_early o cfg event context)
    as [(prompt & np & ar & fmt & Hpre & Hpar & Hne) | (Hlog & _)];
    [|left; exact Hlog].
  right. exists prompt, np, ar, fmt. do 3 (split; [assumption|]).
  rewrite (handler_run unicode_isprintable b64decode o cfg event context
             _ _ _ _ Hpre Hpar Hne). cbv zeta.
  destruct (provider_answer o cfg (request_body prompt np fmt ar))
    as [data|e] eqn:Hans; [|left; reflexivity].
  destruct (image_b64 data) as [[encoded|]|e] eqn:Himg;
    try (left; reflexivity).
  destruct (b64decode encoded) as [image|e] eqn:Hdec; [|left; reflexivity].
  right. exists data, encoded, image.
  do 3 (split; [first [reflexivity | assumption]|]).
  destruct (s3_put_object o (BUCKET_NAME cfg) (storage_key cfg o fmt) image
              (lit "image/" ++ fmt)) as [u|e]; [|left; reflexivity].
  destruct (presign_answer o cfg (storage_key cfg o fmt)) as [url|e] eqn:Hu;
    [|right; left; reflexivity].
  right; right. exists url. split; reflexivity.
Qed.

(** X6.  The effects of a run, whatever its outcome, are an initial
    segment of: the provider call, the upload, the request for a signed
    URL, the two printed lines.  So each backend operation happens at most
    once, nothing is uploaded before the provider was called, and nothing
    is signed before the upload. *)
Theorem effects_in_order (o : Outside) (cfg : Settings)
    (event context : value) :
  exists n payload key image fmt url,
    snd (handler o cfg event context) =
    firstn n ([provider_call cfg payload;
               put_call cfg key image fmt;
               presign_call cfg key] ++ debug_prints url).
Proof.
  destruct (handler_log o cfg event context)
    as [H | (prompt & np & ar & fmt & _ & _ & _ &
             [H | (data & enc & image & _ & _ & _ &
                   [H | [H | (url & _ & H)]])])].
  - exists 0%nat, VNone, [], [], [], []. exact H.
  - exists 1%nat, (request_body prompt np fmt ar), [], [], [], []. exact H.
  - exists 2%nat, (request_body prompt np fmt ar), (storage_key cfg o fmt),
      image, fmt, []. exact H.
  - exists 3%nat, (request_body prompt np fmt ar), (storage_key cfg o fmt),
      image, fmt, []. exact H.
  - exists 5%nat, (request_body prompt np fmt ar), (storage_key cfg o fmt),
      image, fmt, url. exact H.
Qed.

Lemma startswith_app (a b : pystr) : startswith (a ++ b) a = true.
Proof.
  induction a as [|x a IH]; simpl; [destruct b; reflexivity|].
  rewrite N.eqb_refl. exact IH.
Qed.

Lemma storage_key_under_prefix (cfg : Settings) (o : Outside) (fmt : pystr) :
  startswith (storage_key cfg o fmt) (KEY_PREFIX cfg) = true.
Proof.
  unfold storage_key, key_prefix.
  destruct (endswith (KEY_PREFIX cfg) (lit "/")).
  - apply startswith_app.
  - rewrite <- app_assoc. apply startswith_app.
Qed.

(** Membership in an explicit log, case by case. *)
Ltac in_log H :=
  simpl in H;
  repeat match type of H with
         | _ \/ _ => destruct H as [H|H]
         end;
  try discriminate H; try contradiction.

(** X7.  Every upload of a run goes to the configured bucket, under a key
    that starts with the configured prefix and ends with [.] and the
    trimmed output format of the request, with the content type [image/]
    followed by that same format; its body is the decoding of the image
    found in the provider answer.  Every signed URL is asked for
    [get_object] with [GET] and the configured expiry, for the bucket and
    key of an upload of the same run. *)
Theorem upload_metadata (o : Outside) (cfg : Settings)
    (event context : value) :
  (forall b k image ct,
     In (PutObject b k image ct) (snd (handler o cfg event context)) ->
     exists f,
       get_param event (lit "output_format") (lit "png") = Ok f /\
       b = BUCKET_NAME cfg /\
       k = storage_key cfg o (strip f) /\
       startswith k (KEY_PREFIX cfg) = true /\
       ct = lit "image/" ++ strip f /\
       exists prompt np ar data encoded,
         params event = Ok (prompt, np, ar, strip f) /\
         provider_answer o cfg (request_body prompt np (strip f) ar) =
           Ok data /\
         image_b64 data = Ok (Some encoded) /\
         b64decode encoded = Ok image) /\
  (forall m b k t h,
     In (GeneratePresignedUrl m b k t h)
        (snd (handler o cfg event context)) ->
     m = lit "get_object" /\ h = lit "GET" /\
     t = URL_EXPIRES_SECONDS cfg /\
     exists image ct,
       In (PutObject b k image ct) (snd (handler o cfg event context))).
Proof.
  destruct (handler_log o cfg event context)
    as [H | (prompt & np & ar & fmt & _ & Hpar & _ &
             [H | (data & enc & image & Hans & Himg & Hdec &
                   [H | [H | (url & _ & H)]])])];
    rewrite H; clear H.
  1,2: split; intros; simpl in *; intuition discriminate.
  all: destruct (params_inv unicode_isprintable _ _ _ _ _ Hpar)
         as (p & n & a & f & _ & _ & _ & Hf & _ & _ & _ & ->).
  all: split.
  all: try (intros b k im ct Hin; in_log Hin;
            inversion Hin; subst; exists f;
            repeat split; try assumption; try reflexivity;
            [ apply storage_key_under_prefix
            | exists prompt, np, ar, data, enc; auto ]).
  - intros m b k t h Hin. in_log Hin.
  - intros m b k t h Hin. in_log Hin.
    inversion Hin; subst. repeat split; try reflexivity.
    eexists; eexists. simpl. right; left. reflexivity.
  - intros m b k t h Hin. in_log Hin.
    inversion Hin; subst. repeat split; try reflexivity.
    eexists; eexists. simpl. right; left. reflexivity.
Qed.

(* ----------------------------------------------------------------- *)
(** *** Outcomes *)

(** X8.  For a request with a prompt, the handler returns the success
    response with the full sequence of effects exactly when every step
    answers: the provider returns an answer holding an image, the image
    decodes, S3 accepts the upload and signs the URL. *)
Theorem success_iff_all_answer (o : Outside) (cfg : Settings)
    (event context : value) (prompt np ar fmt : pystr) (image : bytes)
    (url : pystr) :
  is_preflight event = Ok false ->
  params event = Ok (prompt, np, ar, fmt) ->
  prompt <> [] ->
  (handler o cfg event context =
   (Ok (success_response url),
    [provider_call cfg (request_body prompt np fmt ar);
     put_call cfg (storage_key cfg o fmt) image fmt;
     presign_call cfg (storage_key cfg o fmt)] ++ debug_prints url) <->
   exists data encoded,
     provider_answer o cfg (request_body prompt np fmt ar) = Ok data /\
     image_b64 data = Ok (Some encoded) /\
     b64decode encoded = Ok image /\
     s3_put_object o (BUCKET_NAME cfg) (storage_key cfg o fmt) image
       (lit "image/" ++ fmt) = Ok tt /\
     presign_answer o cfg (storage_key cfg o fmt) = Ok url).
Proof.
  intros Hpre Hpar Hne.
  rewrite (handler_run unicode_isprintable b64decode o cfg event context
             _ _ _ _ Hpre Hpar Hne). cbv zeta.
  split.
  - destruct (provider_answer o cfg (request_body prompt np fmt ar))
      as [data|e] eqn:Hans; [|discriminate].
    destruct (image_b64 data) as [[encoded|]|e] eqn:Himg; try discriminate.
    destruct (b64decode encoded) as [image'|e] eqn:Hdec; [|discriminate].
    destruct (s3_put_object o (BUCKET_NAME cfg) (storage_key cfg o fmt) image'
                (lit "image/" ++ fmt)) as [[]|e] eqn:Hput; [|discriminate].
    destruct (presign_answer o cfg (storage_key cfg o fmt)) as [url'|e]
      eqn:Hurl; [|discriminate].
    intros H. inversion H; subst.
    exists data, encoded. repeat split; assumption.
  - intros (data & encoded & -> & -> & -> & -> & ->). reflexivity.
Qed.

(** X9.  When the provider call raises, or the image cannot be taken out
    of its answer, or the image does not decode, the handler raises that
    same exception: it returns no response, and the provider call is its
    only effect. *)
Theorem generation_failure_propagates (o : Outside) (cfg : Settings)
    (event context : value) (prompt np ar fmt : pystr) (e : exn) :
  is_preflight event = Ok false ->
  params event = Ok (prompt, np, ar, fmt) ->
  prompt <> [] ->
  (provider_answer o cfg (request_body prompt np fmt ar) = Raise e \/
   (exists data,
      provider_answer o cfg (request_body prompt np fmt ar) = Ok data /\
      (image_b64 data = Raise e \/
       exists encoded,
         image_b64 data = Ok (Some encoded) /\
         b64decode encoded = Raise e))) ->
  handler o cfg event context =
  (Raise e, [provider_call cfg (request_body prompt np fmt ar)]).
Proof.
  intros Hpre Hpar Hne H.
  rewrite (handler_run unicode_isprintable b64decode o cfg event context
             _ _ _ _ Hpre Hpar Hne). cbv zeta.
  destruct H as [-> | (data & -> & [-> | (encoded & -> & ->)])];
    reflexivity.
Qed.

(** X10.  When S3 refuses the upload, the handler raises that exception
    after the attempt and asks for no signature; when S3 accepts the
    upload and then fails to sign, the handler raises after the object
    was stored: nothing is rolled back and no response is returned. *)
Theorem storage_failure_propagates (o : Outside) (cfg : Settings)
    (event context : value) (prompt np ar fmt : pystr)
    (data encoded : value) (image : bytes) (e : exn) :
  is_preflight event = Ok false ->
  params event = Ok (prompt, np, ar, fmt) ->
  prompt <> [] ->
  provider_answer o cfg (request_body prompt np fmt ar) = Ok data ->
  image_b64 data = Ok (Some encoded) ->
  b64decode encoded = Ok image ->
  (s3_put_object o (BUCKET_NAME cfg) (storage_key cfg o fmt) image
     (lit "image/" ++ fmt) = Raise e ->
   handler o cfg event context =
   (Raise e, [provider_call cfg (request_body prompt np fmt ar);
              put_call cfg (storage_key cfg o fmt) image fmt])) /\
  (s3_put_object o (BUCKET_NAME cfg) (storage_key cfg o fmt) image
     (lit "image/" ++ fmt) = Ok tt ->
   presign_answer o cfg (storage_key cfg o fmt) = Raise e ->
   handler o cfg event context =
   (Raise e, [provider_call cfg (request_body prompt np fmt ar);
              put_call cfg (storage_key cfg o fmt) image fmt;
              presign_call cfg (storage_key cfg o fmt)])).
Proof.
  intros Hpre Hpar Hne Hans Himg Hdec.
  rewrite (handler_run unicode_isprintable b64decode o cfg event context
             _ _ _ _ Hpre Hpar Hne). cbv zeta.
  rewrite Hans, Himg, Hdec.
  split; [intros -> | intros -> ->]; reflexivity.
Qed.

(** X11.  A provider answer that is [null], a boolean or a number is not
    reported as a missing image: the membership test is not defined on it,
    and the handler raises [TypeError] after the provider call, without
    upload. *)
Theorem scalar_answer_raises (o : Outside) (cfg : Settings)
    (event context : value) (prompt np ar fmt : pystr) (data : value) :
  is_preflight event = Ok false ->
  params event = Ok (prompt, np, ar, fmt) ->
  prompt <> [] ->
  provider_answer o cfg (request_body prompt np fmt ar) = Ok data ->
  is_scalar data = true ->
  handler o cfg event context =
  (Raise TypeError, [provider_call cfg (request_body prompt np fmt ar)]).
Proof.
  intros Hpre Hpar Hne Hans Hsc.
  rewrite (handler_run unicode_isprintable b64decode o cfg event context
             _ _ _ _ Hpre Hpar Hne). cbv zeta.
  rewrite Hans. destruct data; try discriminate Hsc; reflexivity.
Qed.

(** X12.  The status of a returned response tells what happened.  It is
    200, 400 or 502.  It is 400 only if the prompt is blank, and then
    nothing was done.  It is 502 only if the provider answered and both
    shape tests failed on its answer, and then nothing was uploaded.  It
    is 200 only for a preflight, with no effect at all, or after an
    upload. *)
Theorem status_meaning (o : Outside) (cfg : Settings)
    (event context : value) (r : response) (log : list effect) :
  handler o cfg event context = (Ok r, log) ->
  (statusCode r = 200%Z \/ statusCode r = 400%Z \/ statusCode r = 502%Z) /\
  (statusCode r = 400%Z ->
   log = [] /\
   exists p, get_param event (lit "prompt") [] = Ok p /\ strip p = []) /\
  (statusCode r = 502%Z ->
   uploaded log = [] /\
   exists prompt np ar fmt data,
     params event = Ok (prompt, np, ar, fmt) /\
     provider_answer o cfg (request_body prompt np fmt ar) = Ok data /\
     has_nonempty data (lit "images") = Ok false /\
     has_nonempty data (lit "artifacts") = Ok false /\
     r = no_image_response data) /\
  (statusCode r = 200%Z ->
   (is_preflight event = Ok true /\ log = []) \/ uploaded log <> []).
Proof.
  intros H.
  destruct (handler_returns unicode_isprintable b64decode
              o cfg event context r log H)
    as [(Hp & -> & ->)
       |[(_ & p & Hp & Hs & -> & ->)
        |(_ & prompt & np & ar & fmt & data & Hpar & _ & Hans &
          [(Himg & -> & ->) | (enc & image & url & _ & _ & _ & -> & ->)])]].
  - split; [left; reflexivity|]. repeat split; try discriminate. auto.
  - split; [right; left; reflexivity|].
    repeat split; try discriminate. exists p. auto.
  - split; [right; right; reflexivity|].
    split; [discriminate|]. split; [|discriminate].
    intros _. split; [reflexivity|].
    exists prompt, np, ar, fmt, data.
    do 2 (split; [assumption|]).
    unfold image_b64 in Himg.
    destruct (has_nonempty data (lit "images")) as [[|]|]; simpl in Himg.
    + destruct (subscript_str data (lit "images")) as [x|]; simpl in Himg;
        [destruct (subscript_0 x)|]; discriminate.
    + destruct (has_nonempty data (lit "artifacts")) as [[|]|];
        simpl in Himg; try discriminate; [|auto].
      destruct (subscript_str data (lit "artifacts")) as [x|];
        simpl in Himg; [|discriminate].
      destruct (subscript_0 x) as [y|]; simpl in Himg; [|discriminate].
      destruct (dot_get y (lit "base64")); discriminate.
    + discriminate.
  - split; [left; reflexivity|]. repeat split; try discriminate.
    intros _. right. discriminate.
Qed.

(* ----------------------------------------------------------------- *)
(** *** What is sent to the provider *)

(** X13.  Whatever is sent to the provider is the JSON text written
    out below: the six fields [prompt], [negative_prompt], [mode], [seed],
    [output_format] and [aspect_ratio], in this order, with the fixed mode
    and seed, and with the four trimmed parameters of the request in the
    other fields.  The prompt is not empty and holds a character that is
    no whitespace, and trimming any of the four again changes nothing. *)
Theorem payload_invariants (o : Outside) (cfg : Settings)
    (event context : value) (text : pystr) :
  In text (provider_payloads (snd (handler o cfg event context))) ->
  exists prompt np ar fmt,
    params event = Ok (prompt, np, ar, fmt) /\
    text =
    lit "{" ++ quoted "prompt" ++ lit ": " ++ json_string prompt ++ lit ", " ++
    quoted "negative_prompt" ++ lit ": " ++ json_string np ++ lit ", " ++
    quoted "mode" ++ lit ": " ++ quoted "text-to-image" ++ lit ", " ++
    quoted "seed" ++ lit ": 0, " ++
    quoted "output_format" ++ lit ": " ++ json_string fmt ++ lit ", " ++
    quoted "aspect_ratio" ++ lit ": " ++ json_string ar ++ lit "}" /\
    prompt <> [] /\ forallb isspace prompt = false /\
    strip prompt = prompt /\ strip np = np /\
    strip ar = ar /\ strip fmt = fmt.
Proof.
  intros Hin.
  assert (Hkey : exists prompt np ar fmt,
             params event = Ok (prompt, np, ar, fmt) /\ prompt <> [] /\
             text = json_dumps (request_body prompt np fmt ar)).
  { destruct (handler_log o cfg event context)
      as [H | (prompt & np & ar & fmt & _ & Hpar & Hne &
               [H | (data & enc & image & _ & _ & _ &
                     [H | [H | (url & _ & H)]])])];
      rewrite H in Hin; clear H; in_log Hin;
      exists prompt, np, ar, fmt; auto. }
  destruct Hkey as (prompt & np & ar & fmt & Hpar & Hne & ->).
  exists prompt, np, ar, fmt.
  split; [exact Hpar|].
  split; [apply json_dumps_request_body|].
  split; [exact Hne|].
  destruct (params_inv unicode_isprintable _ _ _ _ _ Hpar)
    as (p & n & a & f & _ & _ & _ & _ & -> & -> & -> & ->).
  rewrite !strip_idempotent. repeat split.
  destruct (forallb isspace (strip p)) eqn:E; [|reflexivity].
  apply strip_nil_iff in E. rewrite strip_idempotent in E. contradiction.
Qed.

(** X14.  A request with a prompt that gives no [negative_prompt]
    (neither directly nor in its query string) sends a payload whose
    [negative_prompt] field is the empty string. *)
Theorem negative_prompt_default (o : Outside) (cfg : Settings)
    (event context : value) (p : pystr) :
  is_preflight event = Ok false ->
  get_param event (lit "prompt") [] = Ok p ->
  strip p <> [] ->
  omits event (lit "negative_prompt") = true ->
  exists fmt ar,
    provider_payloads (snd (handler o cfg event context)) =
    [lit "{" ++ quoted "prompt" ++ lit ": " ++ json_string (strip p) ++ lit ", " ++
     quoted "negative_prompt" ++ lit ": " ++ quoted "" ++ lit ", " ++
     quoted "mode" ++ lit ": " ++ quoted "text-to-image" ++ lit ", " ++
     quoted "seed" ++ lit ": 0, " ++
     quoted "output_format" ++ lit ": " ++ json_string fmt ++ lit ", " ++
     quoted "aspect_ratio" ++ lit ": " ++ json_string ar ++ lit "}"].
Proof.
  intros Hpre Hp Hne Ho.
  destruct (params_of_prompt unicode_isprintable event p
              (omits_well_formed _ _ Ho) Hp)
    as (n & a & f & Hn & _ & _ & Hpar).
  rewrite (omits_get_param unicode_isprintable event
             (lit "negative_prompt") [] Ho) in Hn.
  inversion Hn; subst n.
  exists (strip f), (strip a).
  rewrite (handler_payload unicode_isprintable b64decode o cfg event context
             _ _ _ _ Hpre Hpar Hne).
  rewrite json_dumps_request_body. reflexivity.
Qed.

Lemma uint_chars_head (u : Decimal.uint) :
  u <> Decimal.Nil ->
  exists c r, uint_chars u = c :: r /\ isspace c = false.
Proof.
  intros Hu. destruct u; try contradiction;
    simpl; eexists; eexists; split; reflexivity.
Qed.

(** The text of a value that is no string starts with a character that is
    no whitespace. *)
Lemma py_str_head (v : value) :
  plain_non_string v = true ->
  exists c r, py_str unicode_isprintable v = c :: r /\ isspace c = false.
Proof.
  destruct v as [|b|z|r|s|l|d]; try discriminate; intros _.
  - destruct b; eexists; eexists; split; reflexivity.
  - destruct z as [|q|q].
    + eexists; eexists; split; reflexivity.
    + apply uint_chars_head. apply DecimalPos.Unsigned.to_uint_nonnil.
    + eexists; eexists; split; reflexivity.
  - eexists; eexists; split; reflexivity.
  - eexists; eexists; split; reflexivity.
Qed.

(** X15.  A prompt given as a boolean, an integer, a list or a map is not
    rejected: the handler takes its [str] text as the prompt, which is
    never blank, and calls the provider with it. *)
Theorem non_string_prompt_accepted (o : Outside) (cfg : Settings)
    (event context : value) (v : value) :
  is_preflight event = Ok false ->
  well_formed event = true ->
  supplies event (lit "prompt") v ->
  plain_non_string v = true ->
  strip (py_str unicode_isprintable v) <> [] /\
  exists np fmt ar,
    provider_payloads (snd (handler o cfg event context)) =
    [json_dumps (request_body (strip (py_str unicode_isprintable v))
                   np fmt ar)].
Proof.
  intros Hpre Hw Hsup Hv.
  pose proof (supplies_get_param unicode_isprintable event (lit "prompt") []
                v Hsup) as Hp.
  assert (Hne : strip (py_str unicode_isprintable v) <> []).
  { destruct (py_str_head v Hv) as (c & r & -> & Hc).
    intros E. apply strip_nil_iff in E. simpl in E. rewrite Hc in E.
    discriminate. }
  split; [exact Hne|].
  destruct (params_of_prompt unicode_isprintable event _ Hw Hp)
    as (n & a & f & _ & _ & _ & Hpar).
  exists (strip n), (strip f), (strip a).
  apply (handler_payload unicode_isprintable b64decode o cfg event context
           _ _ _ _ Hpre Hpar Hne).
Qed.

End Behaviour.

(* ----------------------------------------------------------------- *)
(** *** Configuration *)

Lemma environ_get_unset (environ : list (pystr * pystr))
    (name default : pystr) :
  (forall v, ~ In (name, v) environ) ->
  environ_get environ name default = default.
Proof.
  induction environ as [|[k x] rest IH]; simpl; intros H; [reflexivity|].
  destruct (pystr_eqb name k) eqn:E.
  - apply pystr_eqb_eq in E. subst k. exfalso. apply (H x). left. reflexivity.
  - apply IH. intros v Hv. apply (H v). right. exact Hv.
Qed.

Lemma environ_get_set (environ : list (pystr * pystr))
    (name default v : pystr) :
  In (name, v) environ ->
  (forall w, In (name, w) environ -> w = v) ->
  environ_get environ name default = v.
Proof.
  induction environ as [|[k x] rest IH]; simpl; intros Hin Hu; [contradiction|].
  destruct (pystr_eqb name k) eqn:E.
  - apply pystr_eqb_eq in E. subst k. apply Hu. left. reflexivity.
  - destruct Hin as [Hin|Hin].
    + inversion Hin; subst. rewrite pystr_eqb_refl in E. discriminate.
    + apply IH; [exact Hin|]. intros w Hw. apply Hu. right. exact Hw.
Qed.

(** X16.  When the configuration loads, each of its three string
    settings is the default when the environment does not set the
    variable, and the trimmed value of the variable when it does; it has
    no whitespace at either end (trimming it again changes nothing).  The
    expiry is [int] of the variable, or of ["3600"], and every storage key
    starts with the trimmed prefix. *)
Theorem settings_trimmed (py_int : pystr -> result Z)
    (environ : list (pystr * pystr)) (cfg : Settings) :
  load_settings py_int environ = Ok cfg ->
  (forall name default field,
     In (name, default, field)
        [ (lit "MODEL_ID", lit "stability.sd3-5-large-v1:0", MODEL_ID cfg);
          (lit "BUCKET_NAME", lit "myovieostermageenerator03",
           BUCKET_NAME cfg);
          (lit "KEY_PREFIX", lit "generated/", KEY_PREFIX cfg) ] ->
     field = strip (environ_get environ name default) /\
     strip field = field /\
     ((forall v, ~ In (name, v) environ) -> field = default) /\
     (forall v, In (name, v) environ ->
                (forall w, In (name, w) environ -> w = v) ->
                field = strip v)) /\
  py_int (environ_get environ (lit "URL_EXPIRES_SECONDS") (lit "3600")) =
    Ok (URL_EXPIRES_SECONDS cfg) /\
  (forall o fmt,
     startswith (storage_key cfg o fmt)
       (strip (environ_get environ (lit "KEY_PREFIX") (lit "generated/"))) =
     true).
Proof.
  unfold load_settings. intros H.
  destruct (py_int _) as [n|e] eqn:Hn; simpl in H; [|discriminate].
  inversion H; subst cfg; clear H. cbn [MODEL_ID BUCKET_NAME KEY_PREFIX
                                         URL_EXPIRES_SECONDS].
  split; [|split; [reflexivity|]].
  - intros name default field Hin.
    assert (Hcase : field = strip (environ_get environ name default) /\
                    strip default = default).
    { simpl in Hin. destruct Hin as [Hin|[Hin|[Hin|[]]]];
        inversion Hin; subst; split; reflexivity. }
    destruct Hcase as [-> Hd].
    split; [reflexivity|]. split; [apply strip_idempotent|]. split.
    + intros Hu. rewrite (environ_get_unset environ name default Hu).
      exact Hd.
    + intros v Hv Hu. rewrite (environ_get_set environ name default v Hv Hu).
      reflexivity.
  - intros o fmt.
    apply (storage_key_under_prefix
             {| MODEL_ID :=
                  strip (environ_get environ (lit "MODEL_ID")
                           (lit "stability.sd3-5-large-v1:0"));
                BUCKET_NAME :=
                  strip (environ_get environ (lit "BUCKET_NAME")
                           (lit "myovieostermageenerator03"));
                KEY_PREFIX :=
                  strip (environ_get environ (lit "KEY_PREFIX")
                           (lit "generated/"));
                URL_EXPIRES_SECONDS := n |} o fmt).
Qed.

(* ================================================================= *)
(** ** The further properties at sample requests *)

Lemma get_param_error_witness :
  (gives_directly (VDict both_sources_event) (lit "prompt") ||
   well_formed (VDict both_sources_event) = true /\
   exists s, _get_param isprintable_latin1 (VDict both_sources_event)
               (lit "prompt") [] = Ok s) /\
  (gives_directly malformed_query_event (lit "aspect_ratio") ||
   well_formed malformed_query_event = false /\
   _get_param isprintable_latin1 malformed_query_event (lit "aspect_ratio")
     (lit "1:1") = Raise AttributeError).
Proof.
  split; (split; [reflexivity|]).
  - apply (proj1 (get_param_error isprintable_latin1
                    (VDict both_sources_event) (lit "prompt") [])).
    reflexivity.
  - apply (proj2 (get_param_error isprintable_latin1 malformed_query_event
                    (lit "aspect_ratio") (lit "1:1"))).
    reflexivity.
Defined.

Lemma preflight_only_for_options_witness :
  fst (sample_handler (VDict images_answer) 7 options_event) =
    Ok preflight_response /\
  exists d, options_event = VDict d /\
            lookup (lit "httpMethod") d = Some (VStr (lit "OPTIONS")).
Proof.
  split; [reflexivity|].
  apply (proj1 (preflight_only_for_options isprintable_latin1
                  b64decode_canonical
                  (sample_outside (VDict images_answer) 7) sample_settings
                  options_event VNone)).
  reflexivity.
Defined.

Lemma non_map_event_witness :
  (is_dict VNone = false /\
   sample_handler (VDict images_answer) 7 VNone =
   (Ok missing_prompt_response, [])) /\
  (is_dict (VList [VInt 1]) = false /\
   sample_handler (VDict images_answer) 7 (VList [VInt 1]) =
   (Raise AttributeError, [])).
Proof.
  split; (split; [reflexivity|]).
  - apply (non_map_event isprintable_latin1 b64decode_canonical
             (sample_outside (VDict images_answer) 7) sample_settings
             VNone VNone).
    reflexivity.
  - apply (non_map_event isprintable_latin1 b64decode_canonical
             (sample_outside (VDict images_answer) 7) sample_settings
             (VList [VInt 1]) VNone).
    reflexivity.
Defined.

Lemma blank_prompt_iff_witness :
  is_preflight blank_event = Ok false /\
  forallb isspace (lit "   ") = true /\
  sample_handler (VDict images_answer) 7 blank_event =
  (Ok missing_prompt_response, []).
Proof.
  do 2 (split; [reflexivity|]).
  apply (proj2 (blank_prompt_iff isprintable_latin1 b64decode_canonical
                  (sample_outside (VDict images_answer) 7) sample_settings
                  blank_event VNone (lit "   ") eq_refl
                  (supplies_direct [(lit "prompt", VStr (lit "   "))]
                     (lit "prompt") (VStr (lit "   ")) eq_refl
                     ltac:(discriminate)))).
  reflexivity.
Defined.

Lemma unreadable_request_no_effect_witness :
  is_preflight malformed_query_event = Ok false /\
  request_params isprintable_latin1 malformed_query_event =
    Raise AttributeError /\
  snd (sample_handler (VDict images_answer) 7 malformed_query_event) = [] /\
  (fst (sample_handler (VDict images_answer) 7 malformed_query_event) =
     Ok missing_prompt_response \/
   fst (sample_handler (VDict images_answer) 7 malformed_query_event) =
     Raise AttributeError).
Proof.
  do 2 (split; [reflexivity|]).
  apply (unreadable_request_no_effect isprintable_latin1 b64decode_canonical
           (sample_outside (VDict images_answer) 7) sample_settings
           malformed_query_event VNone AttributeError);
    reflexivity.
Defined.

Lemma upload_metadata_witness :
  In (put_call sample_settings (sample_key 7) [65; 66; 67]%N (lit "png"))
     (snd (sample_handler (VDict images_answer) 7 cat_event)) /\
  startswith (sample_key 7) (KEY_PREFIX sample_settings) = true /\
  In (presign_call sample_settings (sample_key 7))
     (snd (sample_handler (VDict images_answer) 7 cat_event)) /\
  exists image ct,
    In (PutObject (BUCKET_NAME sample_settings) (sample_key 7) image ct)
       (snd (sample_handler (VDict images_answer) 7 cat_event)).
Proof.
  assert (Hput : In (put_call sample_settings (sample_key 7)
                       [65; 66; 67]%N (lit "png"))
                    (snd (sample_handler (VDict images_answer) 7 cat_event)))
    by (simpl; right; left; reflexivity).
  assert (Hsign : In (presign_call sample_settings (sample_key 7))
                     (snd (sample_handler (VDict images_answer) 7
                             cat_event)))
    by (simpl; right; right; left; reflexivity).
  split; [exact Hput|]. split; [|split; [exact Hsign|]].
  - destruct (proj1 (upload_metadata isprintable_latin1 b64decode_canonical
                       (sample_outside (VDict images_answer) 7)
                       sample_settings cat_event VNone)
                    _ _ _ _ Hput) as (f & _ & _ & _ & Hs & _).
    exact Hs.
  - destruct (proj2 (upload_metadata isprintable_latin1 b64decode_canonical
                       (sample_outside (VDict images_answer) 7)
                       sample_settings cat_event VNone)
                    _ _ _ _ _ Hsign) as (_ & _ & _ & Hex).
    exact Hex.
Defined.

Lemma success_iff_all_answer_witness :
  is_preflight cat_event = Ok false /\
  request_params isprintable_latin1 cat_event =
    Ok (lit "a cat", [], lit "1:1", lit "png") /\
  scripted_handler (Ok (VDict images_answer)) (Ok tt) (Ok sample_url)
    cat_event =
  (Ok (success_response sample_url), sample_log 7).
Proof.
  do 2 (split; [reflexivity|]).
  apply (proj2 (success_iff_all_answer isprintable_latin1 b64decode_canonical
                  (scripted_outside (Ok (VDict images_answer)) (Ok tt)
                     (Ok sample_url))
                  sample_settings cat_event VNone
                  (lit "a cat") [] (lit "1:1") (lit "png")
                  [65; 66; 67]%N sample_url
                  eq_refl eq_refl ltac:(discriminate))).
  exists (VDict images_answer), (VStr (lit "QUJD")).
  repeat split; reflexivity.
Defined.

Lemma generation_failure_propagates_witness :
  provider_answer (scripted_outside (Raise throttled) (Ok tt) (Ok sample_url))
    sample_settings cat_payload = Raise throttled /\
  scripted_handler (Raise throttled) (Ok tt) (Ok sample_url) cat_event =
  (Raise throttled, [provider_call sample_settings cat_payload]).
Proof.
  split; [reflexivity|].
  apply (generation_failure_propagates isprintable_latin1 b64decode_canonical
           (scripted_outside (Raise throttled) (Ok tt) (Ok sample_url))
           sample_settings cat_event VNone
           (lit "a cat") [] (lit "1:1") (lit "png") throttled
           eq_refl eq_refl ltac:(discriminate)).
  left. reflexivity.
Defined.

Lemma storage_failure_propagates_witness :
  scripted_handler (Ok (VDict images_answer)) (Raise access_denied)
    (Ok sample_url) cat_event =
  (Raise access_denied, sample_log_upload) /\
  scripted_handler (Ok (VDict images_answer)) (Ok tt)
    (Raise access_denied) cat_event =
  (Raise access_denied,
   sample_log_upload ++ [presign_call sample_settings (sample_key 7)]).
Proof.
  split.
  - apply (proj1 (storage_failure_propagates isprintable_latin1
                    b64decode_canonical
                    (scripted_outside (Ok (VDict images_answer))
                       (Raise access_denied) (Ok sample_url))
                    sample_settings cat_event VNone
                    (lit "a cat") [] (lit "1:1") (lit "png")
                    (VDict images_answer) (VStr (lit "QUJD"))
                    [65; 66; 67]%N access_denied
                    eq_refl eq_refl ltac:(discriminate)
                    eq_refl eq_refl eq_refl)).
    reflexivity.
  - apply (proj2 (storage_failure_propagates isprintable_latin1
                    b64decode_canonical
                    (scripted_outside (Ok (VDict images_answer))
                       (Ok tt) (Raise access_denied))
                    sample_settings cat_event VNone
                    (lit "a cat") [] (lit "1:1") (lit "png")
                    (VDict images_answer) (VStr (lit "QUJD"))
                    [65; 66; 67]%N access_denied
                    eq_refl eq_refl ltac:(discriminate)
                    eq_refl eq_refl eq_refl));
      reflexivity.
Defined.

Lemma scalar_answer_raises_witness :
  is_scalar VNone = true /\
  scripted_handler (Ok VNone) (Ok tt) (Ok sample_url) cat_event =
  (Raise TypeError, [provider_call sample_settings cat_payload]).
Proof.
  split; [reflexivity|].
  apply (scalar_answer_raises isprintable_latin1 b64decode_canonical
           (scripted_outside (Ok VNone) (Ok tt) (Ok sample_url))
           sample_settings cat_event VNone
           (lit "a cat") [] (lit "1:1") (lit "png") VNone
           eq_refl eq_refl ltac:(discriminate) eq_refl eq_refl).
Defined.

Lemma status_meaning_witness :
  sample_handler (VDict []) 7 cat_event =
    (Ok (no_image_response (VDict [])),
     [provider_call sample_settings cat_payload]) /\
  statusCode (no_image_response (VDict [])) = 502%Z /\
  uploaded [provider_call sample_settings cat_payload] = [] /\
  exists prompt np ar fmt data,
    request_params isprintable_latin1 cat_event =
      Ok (prompt, np, ar, fmt) /\
    provider_answer (sample_outside (VDict []) 7) sample_settings
      (request_body prompt np fmt ar) = Ok data /\
    has_nonempty data (lit "images") = Ok false /\
    has_nonempty data (lit "artifacts") = Ok false /\
    no_image_response (VDict []) = no_image_response data.
Proof.
  do 2 (split; [reflexivity|]).
  destruct (status_meaning isprintable_latin1 b64decode_canonical
              (sample_outside (VDict []) 7) sample_settings cat_event VNone
              (no_image_response (VDict []))
              [provider_call sample_settings cat_payload] eq_refl)
    as (_ & _ & H502 & _).
  exact (H502 eq_refl).
Defined.

Lemma payload_invariants_witness :
  In (json_dumps cat_payload)
     (provider_payloads
        (snd (sample_handler (VDict images_answer) 7 cat_event))) /\
  exists prompt np ar fmt,
    request_params isprintable_latin1 cat_event =
      Ok (prompt, np, ar, fmt) /\
    json_dumps cat_payload =
    lit "{" ++ quoted "prompt" ++ lit ": " ++ json_string prompt ++ lit ", " ++
    quoted "negative_prompt" ++ lit ": " ++ json_string np ++ lit ", " ++
    quoted "mode" ++ lit ": " ++ quoted "text-to-image" ++ lit ", " ++
    quoted "seed" ++ lit ": 0, " ++
    quoted "output_format" ++ lit ": " ++ json_string fmt ++ lit ", " ++
    quoted "aspect_ratio" ++ lit ": " ++ json_string ar ++ lit "}" /\
    prompt <> [] /\ forallb isspace prompt = false /\
    strip prompt = prompt /\ strip np = np /\
    strip ar = ar /\ strip fmt = fmt.
Proof.
  assert (Hin : In (json_dumps cat_payload)
                   (provider_payloads
                      (snd (sample_handler (VDict images_answer) 7
                              cat_event))))
    by (left; reflexivity).
  split; [exact Hin|].
  exact (payload_invariants isprintable_latin1 b64decode_canonical
           (sample_outside (VDict images_answer) 7) sample_settings
           cat_event VNone (json_dumps cat_payload) Hin).
Defined.

Lemma negative_prompt_default_witness :
  omits cat_event (lit "negative_prompt") = true /\
  exists fmt ar,
    provider_payloads
      (snd (sample_handler (VDict images_answer) 7 cat_event)) =
    [lit "{" ++ quoted "prompt" ++ lit ": " ++ quoted "a cat" ++ lit ", " ++
     quoted "negative_prompt" ++ lit ": " ++ quoted "" ++ lit ", " ++
     quoted "mode" ++ lit ": " ++ quoted "text-to-image" ++ lit ", " ++
     quoted "seed" ++ lit ": 0, " ++
     quoted "output_format" ++ lit ": " ++ json_string fmt ++ lit ", " ++
     quoted "aspect_ratio" ++ lit ": " ++ json_string ar ++ lit "}"].
Proof.
  split; [reflexivity|].
  exact (negative_prompt_default isprintable_latin1 b64decode_canonical
           (sample_outside (VDict images_answer) 7) sample_settings
           cat_event VNone (lit " a cat ")
           eq_refl eq_refl ltac:(discriminate) eq_refl).
Defined.

Lemma non_string_prompt_accepted_witness :
  supplies number_prompt_event (lit "prompt") (VInt 2001) /\
  strip (py_str isprintable_latin1 (VInt 2001)) = lit "2001" /\
  exists np fmt ar,
    provider_payloads
      (snd (sample_handler (VDict images_answer) 7 number_prompt_event)) =
    [json_dumps (request_body (strip (py_str isprintable_latin1 (VInt 2001)))
                   np fmt ar)].
Proof.
  assert (Hsup : supplies number_prompt_event (lit "prompt") (VInt 2001))
    by (apply supplies_direct; [reflexivity | discriminate]).
  split; [exact Hsup|]. split; [reflexivity|].
  exact (proj2 (non_string_prompt_accepted isprintable_latin1
                  b64decode_canonical
                  (sample_outside (VDict images_answer) 7) sample_settings
                  number_prompt_event VNone (VInt 2001)
                  eq_refl eq_refl Hsup eq_refl)).
Defined.

Lemma settings_trimmed_witness :
  load_settings (fun _ => Ok 900%Z) sample_environ =
    Ok {| MODEL_ID := lit "stability.sd3-5-large-v1:0";
          BUCKET_NAME := lit "posters";
          KEY_PREFIX := lit "out";
          URL_EXPIRES_SECONDS := 900 |} /\
  lit "out" = strip (lit "  out ") /\
  lit "stability.sd3-5-large-v1:0" = lit "stability.sd3-5-large-v1:0" /\
  startswith
    (storage_key
       {| MODEL_ID := lit "stability.sd3-5-large-v1:0";
          BUCKET_NAME := lit "posters";
          KEY_PREFIX := lit "out";
          URL_EXPIRES_SECONDS := 900 |}
       (sample_outside (VDict images_answer) 7) (lit "png"))
    (lit "out") = true.
Proof.
  split; [reflexivity|].
  destruct (settings_trimmed (fun _ => Ok 900%Z) sample_environ
              {| MODEL_ID := lit "stability.sd3-5-large-v1:0";
                 BUCKET_NAME := lit "posters";
                 KEY_PREFIX := lit "out";
                 URL_EXPIRES_SECONDS := 900 |} eq_refl)
    as (Hfields & _ & Hkey).
  split; [|split].
  - apply (proj2 (proj2 (proj2
             (Hfields (lit "KEY_PREFIX") (lit "generated/") (lit "out")
                (or_intror (or_intror (or_introl eq_refl))))))
             (lit "  out ")).
    + right; left. reflexivity.
    + intros w [Hw|[Hw|[]]]; inversion Hw; reflexivity.
  - apply (proj1 (proj2 (proj2
             (Hfields (lit "MODEL_ID") (lit "stability.sd3-5-large-v1:0")
                (lit "stability.sd3-5-large-v1:0") (or_introl eq_refl))))).
    intros v [Hv|[Hv|[]]]; inversion Hv.
  - exact (Hkey (sample_outside (VDict images_answer) 7) (lit "png")).
Defined.
